(** * VPNClientGUI: a shallow embedding of [VPNClientGUI.py]

    The Python module drives a privileged WireGuard helper script
    ([VPN.sh]) from a Tk front-end.  This development embeds the
    functions of the module as Rocq functions and settles the claims of
    the specification against them.

    Conventions of the embedding.

    - A Python [str] is a Rocq [string]; a character stands for the code
      point of the same number (0..255).  [str.strip], [str.split],
      [in] on strings and [sorted] are written out below.
    - The helper script is outside the module: it is an oracle
      [Helper] that maps the argument vector it is started with to what
      the child process does ([Behaviour]).
    - Calls that touch the outside world (child processes, message
      boxes, widgets, threads, timers) are recorded as a trace of
      [Event]s; exceptions and a call that never returns are results
      ([Res]).  Functions with effects live in the monad [M]. *)

From Stdlib Require Import String Ascii List Bool Arith ZArith Lia.
From Stdlib Require Import Sorted Permutation.
Import ListNotations.

Local Open Scope string_scope.
Local Open Scope list_scope.

(** ** Python strings *)

Module PyStr.

(** The line feed, ['\n']. *)
Definition LF : ascii := ascii_of_nat 10.

Definition nl : string := String LF EmptyString.

(** Characters removed by [str.strip()] (those for which
    [str.isspace] holds) among the code points below 256:
    U+0009..U+000D, U+001C..U+0020, U+0085 and U+00A0. *)
Definition isspace (c : ascii) : bool :=
  let n := nat_of_ascii c in
  (((9 <=? n) && (n <=? 13)) || ((28 <=? n) && (n <=? 32))
   || (n =? 133) || (n =? 160))%nat.

(** Truthiness of a string: [bool(s)]. *)
Definition truthy (s : string) : bool :=
  match s with EmptyString => false | String _ _ => true end.

(** Truthiness of a value that is a string or [None]. *)
Definition truthy_opt (o : option string) : bool :=
  match o with None => false | Some s => truthy s end.

(** [a or b] on strings. *)
Definition or_else (a b : string) : string :=
  if truthy a then a else b.

Fixpoint lstrip (s : string) : string :=
  match s with
  | EmptyString => EmptyString
  | String c s' => if isspace c then lstrip s' else s
  end.

Fixpoint rstrip (s : string) : string :=
  match s with
  | EmptyString => EmptyString
  | String c s' =>
      match rstrip s' with
      | EmptyString => if isspace c then EmptyString else String c EmptyString
      | r => String c r
      end
  end.

(** [s.strip()] *)
Definition strip (s : string) : string := rstrip (lstrip s).

(** [s.split(sep)] for a one-character separator: never the empty
    list, [n + 1] fields for [n] separators. *)
Fixpoint split (sep : ascii) (s : string) : list string :=
  match s with
  | EmptyString => [EmptyString]
  | String c s' =>
      if Ascii.eqb c sep then EmptyString :: split sep s'
      else match split sep s' with
           | [] => [String c EmptyString]
           | field :: fields => String c field :: fields
           end
  end.

(** [needle in hay] on strings: [needle] occurs as a substring. *)
Fixpoint contains (needle hay : string) : bool :=
  String.prefix needle hay
  || match hay with
     | EmptyString => false
     | String _ hay' => contains needle hay'
     end.

(** [x in xs] for a list of strings. *)
Definition in_list (x : string) (xs : list string) : bool :=
  existsb (String.eqb x) xs.

(** [sorted(xs)] on a list of strings: ascending in the order of
    [str], which compares code point by code point ([String.leb]).
    Python's sort is stable; on strings equal elements are identical,
    so any sorting function computes the same list.  Insertion from
    the right keeps the model structural. *)
Fixpoint insert (x : string) (xs : list string) : list string :=
  match xs with
  | [] => [x]
  | y :: ys => if String.leb x y then x :: xs else y :: insert x ys
  end.

Fixpoint sorted (xs : list string) : list string :=
  match xs with
  | [] => []
  | x :: xs' => insert x (sorted xs')
  end.

End PyStr.

(** ** The outside world *)

(** What the child process started with a given argument vector does.
    [stdout] and [stderr] are the captured streams as Python sees them
    ([capture_output=True, text=True]: decoded text). *)
Inductive Behaviour : Type :=
| Exits (elapsed : nat) (returncode : Z) (stdout stderr : string)
    (** runs for [elapsed] time units, then exits *)
| Hangs
    (** is started and never exits *)
| NotFound
    (** the executable does not exist: [FileNotFoundError] at launch *)
| Fails (msg : string).
    (** any other exception of class [Exception] raised by
        [subprocess.run] ([PermissionError], [OSError],
        [UnicodeDecodeError], ...), [msg] being [str(e)] *)

Definition Helper : Type := list string -> Behaviour.

(** The exceptions that occur in the module. *)
Inductive PyExc : Type :=
| FileNotFoundError
| CalledProcessError (returncode : Z) (stdout stderr : string)
| IndexError
| OtherException (msg : string).

(** Functions scheduled with [root.after]. *)
Inductive Callback : Type :=
| cb_update_status.

(** State of a Tk button. *)
Inductive ButtonState : Type :=
| normal
| disabled.

(** Observable actions of the module, in the order they happen. *)
Inductive Event : Type :=
| SubprocessRun (command : list string) (shell : bool)
    (** [subprocess.run(command, ...)]: a child is started with this
        argument vector; [shell] is the value of the [shell] argument *)
| ChildExited (elapsed : nat)
    (** the call waited [elapsed] time units for the child to exit *)
| ShowInfo (title message : string)
| ShowError (title message : string)
| ShowWarning (title message : string)
| AskYesNo (title message : string) (answer : bool)
| StatusLabelConfig (text : string)
| DisconnectButtonConfig (state : ButtonState)
| ToplevelCreate (values : list string) (initial : string)
    (** the selection window, with the combobox values and the value
        the combobox is set to *)
| ToplevelDestroy
| ThreadStart (command_args : list string)
    (** [threading.Thread(target=lambda: run_bash_command(command_args)).start()] *)
| RootAfter (ms : nat) (callback : Callback).

(** Result of a call: it returns, raises, or never returns. *)
Inductive Res (A : Type) : Type :=
| Ret (a : A)
| Raise (e : PyExc)
| Diverge.

Arguments Ret {A} a.
Arguments Raise {A} e.
Arguments Diverge {A}.

(** ** The effect monad *)

Definition M (A : Type) : Type := (list Event * Res A)%type.

Definition ret {A : Type} (a : A) : M A := ([], Ret a).

Definition bind {A B : Type} (m : M A) (f : A -> M B) : M B :=
  match snd m with
  | Ret a => (fst m ++ fst (f a), snd (f a))
  | Raise e => (fst m, Raise e)
  | Diverge => (fst m, Diverge)
  end.

Definition emit (ev : Event) : M unit := ([ev], Ret tt).

Definition raise {A : Type} (e : PyExc) : M A := ([], Raise e).

(** [try: body except ...: handler] with a handler for every exception
    the body can raise. *)
Definition try_except {A : Type} (body : M A) (handler : PyExc -> M A) : M A :=
  match snd body with
  | Raise e => (fst body ++ fst (handler e), snd (handler e))
  | _ => body
  end.

(** The events of a call, and how it ends. *)
Definition trace {A : Type} (m : M A) : list Event := fst m.

Definition outcome {A : Type} (m : M A) : Res A := snd m.

Declare Scope py_scope.
Delimit Scope py_scope with py.

Notation "x <- m ;; k" := (bind m (fun x => k))
  (at level 61, m at next level, right associativity) : py_scope.
Notation "m ;;; k" := (bind m (fun _ => k))
  (at level 61, right associativity) : py_scope.

Local Open Scope py_scope.

(** ** The module *)

(** [subprocess.CompletedProcess] *)
Record CompletedProcess : Type := mkCompleted {
  cp_returncode : Z;
  cp_stdout : string;
  cp_stderr : string
}.

(** [subprocess.run(command, capture_output=True, text=True, check=check)].
    No [shell] argument is given, so the list is the child's argument
    vector ([shell=False]); no [timeout] argument is given, so the call
    waits until the child exits. *)
Definition subprocess_run (helper : Helper) (command : list string)
    (check : bool) : M CompletedProcess :=
  emit (SubprocessRun command false) ;;;
  match helper command with
  | NotFound => raise FileNotFoundError
  | Fails msg => raise (OtherException msg)
  | Hangs => ([], Diverge)
  | Exits elapsed rc out err =>
      emit (ChildExited elapsed) ;;;
      if check && negb (rc =? 0)%Z
      then raise (CalledProcessError rc out err)
      else ret (mkCompleted rc out err)
  end.

(** [xs[0]] *)
Definition index0 (xs : list string) : M string :=
  match xs with
  | [] => raise IndexError
  | x :: _ => ret x
  end.

Section Module_.

(** [WIREGUARD_BASH_SCRIPT]: the path of [VPN.sh] next to the module. *)
Variable WIREGUARD_BASH_SCRIPT : string.

(** The helper script as it behaves during the call. *)
Variable helper : Helper.

(** The body of the [try] of [run_bash_command]. *)
Definition run_bash_command_try (command_args : list string)
    (show_success_popup : bool) : M (option string) :=
  let command := [WIREGUARD_BASH_SCRIPT] ++ command_args in
  result <- subprocess_run helper command true ;;
  (if show_success_popup
   then op <- index0 command_args ;;
        if PyStr.in_list op ["connect"; "disconnect"; "import"]
        then emit (ShowInfo "Success"
                    (PyStr.or_else (PyStr.strip (cp_stdout result))
                       ("Operation '" ++ op ++ "' completed successfully.")%string))
        else ret tt
   else ret tt) ;;;
  ret (Some (PyStr.strip (cp_stdout result))).

(** The text of the dialog of the [FileNotFoundError] clause. *)
Definition script_not_found : string :=
  ("Script not found: " ++ WIREGUARD_BASH_SCRIPT ++ PyStr.nl
   ++ "Please ensure the Bash script is in the same directory and executable.")%string.

(** The diagnostic of a failed child:
    [e.stderr.strip() or e.stdout.strip() or e.output.strip()], where
    [e.output] is the same attribute as [e.stdout]. *)
Definition diagnostic (out err : string) : string :=
  PyStr.or_else (PyStr.strip err)
    (PyStr.or_else (PyStr.strip out) (PyStr.strip out)).

(** [error_message] of the [CalledProcessError] clause. *)
Definition error_message (out err : string) : string :=
  ("An error occurred during VPN operation:" ++ PyStr.nl ++ PyStr.nl
   ++ diagnostic out err)%string.

(** The [except] clauses of [run_bash_command], in order:
    [FileNotFoundError], [subprocess.CalledProcessError], [Exception]. *)
Definition run_bash_command_except (e : PyExc) : M (option string) :=
  match e with
  | FileNotFoundError =>
      emit (ShowError "Error" script_not_found) ;;;
      ret None
  | CalledProcessError _ out err =>
      emit (ShowError "Operation Failed" (error_message out err)) ;;;
      ret None
  | IndexError =>
      emit (ShowError "Unexpected Error"
              "An unexpected error occurred: list index out of range") ;;;
      ret None
  | OtherException msg =>
      emit (ShowError "Unexpected Error"
              ("An unexpected error occurred: " ++ msg)%string) ;;;
      ret None
  end.

(** [run_bash_command(command_args, wait_for_completion, show_success_popup)];
    [wait_for_completion] is not used by the body. *)
Definition run_bash_command (command_args : list string)
    (wait_for_completion : bool) (show_success_popup : bool)
    : M (option string) :=
  try_except (run_bash_command_try command_args show_success_popup)
             run_bash_command_except.

Definition get_vpn_interface_names : M (list string) :=
  output <- run_bash_command ["list_interfaces"] true false ;;
  match output with
  | Some out =>
      if PyStr.truthy out
      then let interfaces :=
             map PyStr.strip
               (filter (fun line => PyStr.truthy (PyStr.strip line))
                  (PyStr.split PyStr.LF out)) in
           ret (PyStr.sorted interfaces)
      else ret []
  | None => ret []
  end.

Definition get_active_vpn_interface : M (option string) :=
  run_bash_command ["get_active"] true false.

(** One run of [update_status]; the next one is the [RootAfter] event. *)
Definition update_status : M unit :=
  active_iface <- get_active_vpn_interface ;;
  (match active_iface with
   | Some name =>
       if PyStr.truthy name
       then emit (StatusLabelConfig ("Status: Connected to " ++ name)%string) ;;;
            emit (DisconnectButtonConfig normal)
       else emit (StatusLabelConfig "Status: Disconnected") ;;;
            emit (DisconnectButtonConfig disabled)
   | None =>
       emit (StatusLabelConfig "Status: Disconnected") ;;;
       emit (DisconnectButtonConfig disabled)
   end) ;;;
  emit (RootAfter 5000 cb_update_status).

End Module_.

(** ** The handlers of the three buttons *)

(** What the user does in the selection window: pick the entry at a
    position of the (read-only) combobox, or press [Connect].  The
    window is closed by the user when the actions run out. *)
Inductive DialogAction : Type :=
| Select (position : nat)
| ClickConnect.

Section Handlers.

Variable WIREGUARD_BASH_SCRIPT : string.

Variable helper : Helper.

(** [do_connect], on the value of [selected_vpn_name].  The result
    tells whether the window was destroyed. *)
Definition do_connect (selected_name : string) : M bool :=
  if negb (PyStr.truthy selected_name)
  then emit (ShowWarning "Selection Required" "Please select a VPN interface.") ;;;
       ret false
  else emit (ThreadStart ["connect"; selected_name]) ;;;
       emit ToplevelDestroy ;;;
       emit (RootAfter 1000 cb_update_status) ;;;
       ret true.

(** [connect_window.wait_window(connect_window)]: the user acts on the
    window until it is destroyed.  A read-only combobox holds one of
    its values: a position outside the list selects nothing. *)
Fixpoint wait_window (interfaces : list string) (selected_vpn_name : string)
    (actions : list DialogAction) : M unit :=
  match actions with
  | [] => emit ToplevelDestroy
  | Select position :: rest =>
      wait_window interfaces (nth position interfaces selected_vpn_name) rest
  | ClickConnect :: rest =>
      destroyed <- do_connect selected_vpn_name ;;
      if destroyed then ret tt
      else wait_window interfaces selected_vpn_name rest
  end.

Definition connect_vpn_gui (actions : list DialogAction) : M unit :=
  interfaces <- get_vpn_interface_names WIREGUARD_BASH_SCRIPT helper ;;
  match interfaces with
  | [] =>
      emit (ShowInfo "Connect VPN"
              ("No WireGuard VPN configurations found." ++ PyStr.nl
               ++ "Please import a configuration first.")%string)
  | first :: _ =>
      emit (ToplevelCreate interfaces first) ;;;
      wait_window interfaces first actions
  end.

(** [disconnect_vpn_gui]; [answer] is what the user answers to
    [messagebox.askyesno]. *)
Definition disconnect_vpn_gui (answer : bool) : M unit :=
  active_iface <- get_active_vpn_interface WIREGUARD_BASH_SCRIPT helper ;;
  match active_iface with
  | Some name =>
      if PyStr.truthy name
      then emit (AskYesNo "Disconnect VPN"
                   ("Are you sure you want to disconnect from " ++ name ++ "?")%string
                   answer) ;;;
           if answer
           then emit (ThreadStart ["disconnect"; name]) ;;;
                emit (RootAfter 1000 cb_update_status)
           else ret tt
      else emit (ShowInfo "Disconnect VPN" "No active WireGuard VPN detected.")
  | None => emit (ShowInfo "Disconnect VPN" "No active WireGuard VPN detected.")
  end.

(** [import_config_gui]; [source_file] is what
    [filedialog.askopenfilename] returns (empty when cancelled) and
    [config_name] what [simpledialog.askstring] returns ([None] when
    cancelled). *)
Definition import_config_gui (source_file : string)
    (config_name : option string) : M unit :=
  if negb (PyStr.truthy source_file) then ret tt
  else if negb (PyStr.truthy_opt config_name)
  then emit (ShowError "Error"
               "Configuration name cannot be empty. Operation cancelled.")
  else let name := match config_name with Some n => n | None => "" end in
       if PyStr.contains "/" name || PyStr.contains ".." name
       then emit (ShowError "Invalid Name"
                    "VPN name cannot contain '/' or '..'")
       else emit (ThreadStart ["import"; source_file; name]) ;;;
            emit (RootAfter 1000 cb_update_status).

End Handlers.

(** ** The main loop *)

(** The threads a trace starts, by the arguments their
    [run_bash_command] is called with. *)
Fixpoint threads_started (t : list Event) : list (list string) :=
  match t with
  | [] => []
  | ThreadStart command_args :: t' => command_args :: threads_started t'
  | _ :: t' => threads_started t'
  end.

(** The child processes a trace starts on the calling thread. *)
Fixpoint processes_started (t : list Event) : list (list string) :=
  match t with
  | [] => []
  | SubprocessRun command _ :: t' => command :: processes_started t'
  | _ :: t' => processes_started t'
  end.

(** The three buttons of the main window, with what the user enters in
    the dialogs they open. *)
Inductive Request : Type :=
| RequestConnect (actions : list DialogAction)
| RequestDisconnect (answer : bool)
| RequestImport (source_file : string) (config_name : option string).

Definition handle (WIREGUARD_BASH_SCRIPT : string) (helper : Helper)
    (r : Request) : M unit :=
  match r with
  | RequestConnect actions => connect_vpn_gui WIREGUARD_BASH_SCRIPT helper actions
  | RequestDisconnect answer => disconnect_vpn_gui WIREGUARD_BASH_SCRIPT helper answer
  | RequestImport source_file config_name => import_config_gui source_file config_name
  end.

(** What [root.mainloop()] sees: a button is pressed, the status timer
    fires (each with the helper as it behaves during the callback), or
    one of the started threads comes to its end. *)
Inductive Occurrence : Type :=
| ButtonPressed (helper : Helper) (r : Request)
| TimerFired (helper : Helper)
| ThreadFinished (position : nat).

(** The state of the application: the threads that run
    [run_bash_command], oldest first, and whether the main loop is
    stuck in a callback that does not return. *)
Record App : Type := mkApp {
  in_flight : list (list string);
  stuck : bool
}.

Definition App_start : App := mkApp [] false.

Fixpoint remove_nth {A : Type} (n : nat) (xs : list A) : list A :=
  match n, xs with
  | _, [] => []
  | O, _ :: xs' => xs'
  | S n', x :: xs' => x :: remove_nth n' xs'
  end.

Definition returns {A : Type} (m : M A) : bool :=
  match outcome m with
  | Ret _ => true
  | _ => false
  end.

(** One callback of the main loop.  Callbacks run one after the other
    on the main thread; the threads they start run beside it. *)
Definition callback (a : App) (m : M unit) : App :=
  if stuck a then a
  else mkApp (in_flight a ++ threads_started (trace m)) (negb (returns m)).

Definition occur (WIREGUARD_BASH_SCRIPT : string) (a : App) (o : Occurrence) : App :=
  match o with
  | ButtonPressed helper r => callback a (handle WIREGUARD_BASH_SCRIPT helper r)
  | TimerFired helper => callback a (update_status WIREGUARD_BASH_SCRIPT helper)
  | ThreadFinished position => mkApp (remove_nth position (in_flight a)) (stuck a)
  end.

Definition mainloop (WIREGUARD_BASH_SCRIPT : string) (a : App)
    (os : list Occurrence) : App :=
  fold_left (occur WIREGUARD_BASH_SCRIPT) os a.

(** The operations that change the host: [connect], [disconnect] and
    [import]. *)
Definition mutating (command_args : list string) : bool :=
  match command_args with
  | [] => false
  | op :: _ => PyStr.in_list op ["connect"; "disconnect"; "import"]
  end.

(** ** Properties used in the statements *)

(** [needle] occurs in [hay]. *)
Definition Substring (needle hay : string) : Prop :=
  exists before after : string, hay = (before ++ needle ++ after)%string.

(** The name test the specification words: not empty, neither ['/'] nor
    ['..'] inside, shorter than the bound. *)
Definition spec_name_valid (bound : nat) (name : string) : Prop :=
  name <> EmptyString /\ ~ Substring "/" name /\ ~ Substring ".." name
  /\ String.length name < bound.

(** The configuration of the status widgets in a trace: what a user
    of the main window sees of the status. *)
Definition is_status_widget (ev : Event) : bool :=
  match ev with
  | StatusLabelConfig _ | DisconnectButtonConfig _ => true
  | _ => false
  end.

Definition status_shown (t : list Event) : list Event :=
  filter is_status_widget t.

(** The error dialogs of a trace. *)
Definition is_error_dialog (ev : Event) : bool :=
  match ev with
  | ShowError _ _ => true
  | _ => false
  end.

Definition errors_shown (t : list Event) : list Event :=
  filter is_error_dialog t.

(** [sep.join(xs)] for a one-character separator. *)
Fixpoint join (sep : ascii) (xs : list string) : string :=
  match xs with
  | [] => EmptyString
  | [x] => x
  | x :: xs' => (x ++ String sep (join sep xs'))%string
  end.

(** A string without white space at either end. *)
Definition Trimmed (s : string) : Prop :=
  PyStr.strip s = s.

(** A name of [n] letters. *)
Fixpoint long_name (n : nat) : string :=
  match n with
  | O => EmptyString
  | S n' => String "a" (long_name n')
  end.

(** ** The window and its timers *)

(** The information dialogs, the warnings, the questions and the
    selection windows of a trace. *)
Definition is_info_dialog (ev : Event) : bool :=
  match ev with
  | ShowInfo _ _ => true
  | _ => false
  end.

Definition infos_shown (t : list Event) : list Event :=
  filter is_info_dialog t.

Definition is_warning_dialog (ev : Event) : bool :=
  match ev with
  | ShowWarning _ _ => true
  | _ => false
  end.

Definition warnings_shown (t : list Event) : list Event :=
  filter is_warning_dialog t.

Definition is_question (ev : Event) : bool :=
  match ev with
  | AskYesNo _ _ _ => true
  | _ => false
  end.

Definition questions_asked (t : list Event) : list Event :=
  filter is_question t.

Definition is_toplevel (ev : Event) : bool :=
  match ev with
  | ToplevelCreate _ _ => true
  | _ => false
  end.

Definition windows_opened (t : list Event) : list Event :=
  filter is_toplevel t.

(** The calls of [root.after] in a trace. *)
Definition is_timer (ev : Event) : bool :=
  match ev with
  | RootAfter _ _ => true
  | _ => false
  end.

Definition timers_scheduled (t : list Event) : list Event :=
  filter is_timer t.

(** The child never exits. *)
Definition hangs (b : Behaviour) : bool :=
  match b with
  | Hangs => true
  | _ => false
  end.

(** The call of the helper fails: the script is missing, the child
    exits with a status other than zero, or another exception is
    raised. *)
Definition failed (b : Behaviour) : bool :=
  match b with
  | Exits _ rc _ _ => negb (rc =? 0)%Z
  | Hangs => false
  | NotFound | Fails _ => true
  end.

(** [create_main_window], up to [root.mainloop()]: the status label is
    created with the text "Status: Checking...", the disconnect button
    in the state [disabled], and [update_status] is called once. *)
Definition create_main_window (WIREGUARD_BASH_SCRIPT : string)
    (helper : Helper) : M unit :=
  emit (StatusLabelConfig "Status: Checking...") ;;;
  emit (DisconnectButtonConfig disabled) ;;;
  update_status WIREGUARD_BASH_SCRIPT helper.

(** The application with the timers of [root.after] that have not fired
    yet; every one of them calls [update_status]. *)
Record Window : Type := mkWindow {
  application : App;
  pending : nat
}.

(** The window when [root.mainloop()] is entered. *)
Definition Window_start (WIREGUARD_BASH_SCRIPT : string) (helper : Helper)
    : Window :=
  let startup := create_main_window WIREGUARD_BASH_SCRIPT helper in
  mkWindow (callback App_start startup)
           (length (timers_scheduled (trace startup))).

(** One occurrence in the main loop, with the timers.  A timer fires
    once: it leaves the pending ones and its callback may schedule
    others.  Nothing fires when no timer is pending, and no callback
    runs while the loop is stuck. *)
Definition fire (WIREGUARD_BASH_SCRIPT : string) (w : Window)
    (o : Occurrence) : Window :=
  match o with
  | ButtonPressed helper r =>
      if stuck (application w) then w
      else mkWindow (occur WIREGUARD_BASH_SCRIPT (application w) o)
             (pending w
              + length (timers_scheduled
                          (trace (handle WIREGUARD_BASH_SCRIPT helper r))))
  | TimerFired helper =>
      match pending w with
      | O => w
      | S others =>
          if stuck (application w) then w
          else mkWindow (occur WIREGUARD_BASH_SCRIPT (application w) o)
                 (others
                  + length (timers_scheduled
                              (trace (update_status WIREGUARD_BASH_SCRIPT helper))))
      end
  | ThreadFinished _ =>
      mkWindow (occur WIREGUARD_BASH_SCRIPT (application w) o) (pending w)
  end.

Definition run_window (WIREGUARD_BASH_SCRIPT : string) (w : Window)
    (os : list Occurrence) : Window :=
  fold_left (fire WIREGUARD_BASH_SCRIPT) os w.

(** The threads an occurrence starts, and whether its callback returns. *)
Definition threads_of (WIREGUARD_BASH_SCRIPT : string) (o : Occurrence)
    : list (list string) :=
  match o with
  | ButtonPressed helper r =>
      threads_started (trace (handle WIREGUARD_BASH_SCRIPT helper r))
  | _ => []
  end.

Definition callback_returns (WIREGUARD_BASH_SCRIPT : string) (o : Occurrence)
    : bool :=
  match o with
  | ButtonPressed helper r => returns (handle WIREGUARD_BASH_SCRIPT helper r)
  | TimerFired helper => returns (update_status WIREGUARD_BASH_SCRIPT helper)
  | ThreadFinished _ => true
  end.

(** * Proofs *)

(** ** The model on small inputs *)

Example strip_spaces : PyStr.strip "  wg0 home  " = "wg0 home".
Proof. reflexivity. Qed.

Example strip_blank : PyStr.strip (String PyStr.LF "  ") = EmptyString.
Proof. reflexivity. Qed.

Example split_lines :
  PyStr.split PyStr.LF ("work" ++ PyStr.nl ++ PyStr.nl ++ "home")
  = ["work"; EmptyString; "home"].
Proof. reflexivity. Qed.

Example split_empty : PyStr.split PyStr.LF EmptyString = [EmptyString].
Proof. reflexivity. Qed.

Example contains_dots : PyStr.contains ".." "a..b" = true.
Proof. reflexivity. Qed.

Example contains_single_dot : PyStr.contains ".." "a.b.conf" = false.
Proof. reflexivity. Qed.

Example sorted_names : PyStr.sorted ["work"; "Home"; "home"; "a10"; "a2"]
                       = ["Home"; "a10"; "a2"; "home"; "work"].
Proof. reflexivity. Qed.

Example connect_succeeds :
  run_bash_command "/opt/vpn/VPN.sh" (fun _ => Exits 3 0 "" "")
    ["connect"; "home"] true true
  = ([SubprocessRun ["/opt/vpn/VPN.sh"; "connect"; "home"] false;
      ChildExited 3;
      ShowInfo "Success" "Operation 'connect' completed successfully."],
     Ret (Some EmptyString)).
Proof. reflexivity. Qed.

Example status_connected :
  update_status "/opt/vpn/VPN.sh" (fun _ => Exits 1 0 (" home" ++ PyStr.nl) "")
  = ([SubprocessRun ["/opt/vpn/VPN.sh"; "get_active"] false;
      ChildExited 1;
      StatusLabelConfig "Status: Connected to home";
      DisconnectButtonConfig normal;
      RootAfter 5000 cb_update_status],
     Ret tt).
Proof. reflexivity. Qed.

Example disconnect_declined :
  disconnect_vpn_gui "/opt/vpn/VPN.sh" (fun _ => Exits 1 0 "home" "") false
  = ([SubprocessRun ["/opt/vpn/VPN.sh"; "get_active"] false;
      ChildExited 1;
      AskYesNo "Disconnect VPN" "Are you sure you want to disconnect from home?" false],
     Ret tt).
Proof. reflexivity. Qed.

Example thread_finishes :
  mainloop "/opt/vpn/VPN.sh" App_start
    [ButtonPressed (fun _ => Exits 1 0 "home" "") (RequestDisconnect true);
     ThreadFinished 0]
  = App_start.
Proof. reflexivity. Qed.

(** ** Strings *)

Lemma truthy_true (s : string) : PyStr.truthy s = true <-> s <> EmptyString.
Proof. destruct s; simpl; split; intros; congruence. Qed.

Lemma truthy_false (s : string) : PyStr.truthy s = false <-> s = EmptyString.
Proof. destruct s; simpl; split; intros; congruence. Qed.

Lemma or_else_empty (s : string) : PyStr.or_else EmptyString s = s.
Proof. reflexivity. Qed.

Lemma or_else_same (s : string) : PyStr.or_else s s = s.
Proof. destruct s; reflexivity. Qed.

Lemma prefix_append (p s : string) :
  String.prefix p s = true <-> exists after, s = (p ++ after)%string.
Proof.
  revert s; induction p as [|c p IH]; intros s; simpl.
  - destruct s; split; intros; eauto.
  - destruct s as [|d s].
    + split; [discriminate | intros [after H]; discriminate].
    + simpl. destruct (ascii_dec c d) as [->|Hne].
      * rewrite IH. split; intros [after H]; exists after.
        -- now rewrite H.
        -- now injection H.
      * split; [discriminate | intros [after H]; injection H; congruence].
Qed.

Lemma contains_Substring (needle hay : string) :
  PyStr.contains needle hay = true <-> Substring needle hay.
Proof.
  induction hay as [|c hay IH].
  - cbn [PyStr.contains]. rewrite orb_false_r, prefix_append. split.
    + intros [after H]. exists EmptyString, after. exact H.
    + intros [before [after H]]. destruct before; simpl in H.
      * now exists after.
      * discriminate.
  - cbn [PyStr.contains]. rewrite orb_true_iff, IH, prefix_append. split.
    + intros [[after H] | [before [after H]]].
      * exists EmptyString, after. exact H.
      * exists (String c before), after. simpl. now rewrite H.
    + intros [before [after H]]. destruct before as [|d before]; simpl in H.
      * left. now exists after.
      * right. injection H as _ H. now exists before, after.
Qed.

Lemma contains_false (needle hay : string) :
  PyStr.contains needle hay = false <-> ~ Substring needle hay.
Proof.
  rewrite <- contains_Substring. destruct (PyStr.contains needle hay); split;
    intros; congruence.
Qed.

(** ** The order of strings *)

Lemma ascii_compare_refl (c : ascii) : Ascii.compare c c = Eq.
Proof. unfold Ascii.compare. apply N.compare_refl. Qed.

Lemma string_compare_refl (s : string) : String.compare s s = Eq.
Proof.
  induction s as [|c s IH]; simpl; [reflexivity|].
  now rewrite ascii_compare_refl.
Qed.

Lemma string_leb_refl (s : string) : String.leb s s = true.
Proof. unfold String.leb. now rewrite string_compare_refl. Qed.

Lemma string_leb_trans (a b c : string) :
  String.leb a b = true -> String.leb b c = true -> String.leb a c = true.
Proof.
  unfold String.leb. revert b c.
  induction a as [|x a IH]; intros [|y b] [|z c]; simpl; try congruence.
  destruct (Ascii.compare x y) eqn:Hxy; try congruence.
  - apply Ascii.compare_eq_iff in Hxy. subst y.
    destruct (Ascii.compare x z); try congruence. apply IH.
  - intros _. destruct (Ascii.compare y z) eqn:Hyz; try congruence.
    + apply Ascii.compare_eq_iff in Hyz. subst z. now rewrite Hxy.
    + intros _. unfold Ascii.compare in *.
      rewrite N.compare_lt_iff in Hxy, Hyz.
      assert (H : (N_of_ascii x ?= N_of_ascii z)%N = Lt)
        by (apply N.compare_lt_iff; lia).
      now rewrite H.
Qed.

(** ** [sorted] *)

Lemma insert_Permutation (x : string) (xs : list string) :
  Permutation (x :: xs) (PyStr.insert x xs).
Proof.
  induction xs as [|y ys IH]; simpl; [reflexivity|].
  destruct (String.leb x y); [reflexivity|].
  rewrite perm_swap. now constructor.
Qed.

Lemma sorted_Permutation (xs : list string) : Permutation xs (PyStr.sorted xs).
Proof.
  induction xs as [|x xs IH]; simpl; [constructor|].
  rewrite <- insert_Permutation. now constructor.
Qed.

Lemma insert_StronglySorted (x : string) (xs : list string) :
  StronglySorted (fun a b => String.leb a b = true) xs ->
  StronglySorted (fun a b => String.leb a b = true) (PyStr.insert x xs).
Proof.
  induction 1 as [|y ys Hs IH Hy]; simpl.
  - repeat constructor.
  - destruct (String.leb x y) eqn:Hxy.
    + constructor; [now constructor|].
      constructor; [exact Hxy|].
      rewrite Forall_forall in *. intros z Hz.
      eapply string_leb_trans; eauto.
    + constructor; [exact IH|].
      rewrite Forall_forall in *. intros z Hz.
      apply (Permutation_in _ (Permutation_sym (insert_Permutation x ys))) in Hz.
      destruct Hz as [<-|Hz]; [|now apply Hy].
      destruct (String.leb_total x y) as [H|H]; congruence.
Qed.

Lemma sorted_StronglySorted (xs : list string) :
  StronglySorted (fun a b => String.leb a b = true) (PyStr.sorted xs).
Proof.
  induction xs as [|x xs IH]; simpl; [constructor|].
  now apply insert_StronglySorted.
Qed.

(** ** [run_bash_command], case by case *)

Section Run_bash_command.

Variable WIREGUARD_BASH_SCRIPT : string.

Variable helper : Helper.

Ltac run_case H :=
  unfold run_bash_command, run_bash_command_try, subprocess_run;
  cbn; rewrite H; cbn.

Lemma run_not_found (args : list string) (w p : bool) :
  helper (WIREGUARD_BASH_SCRIPT :: args) = NotFound ->
  run_bash_command WIREGUARD_BASH_SCRIPT helper args w p =
  ([SubprocessRun (WIREGUARD_BASH_SCRIPT :: args) false;
    ShowError "Error" (script_not_found WIREGUARD_BASH_SCRIPT)],
   Ret None).
Proof. intros H. run_case H. reflexivity. Qed.

Lemma run_fails (args : list string) (w p : bool) (msg : string) :
  helper (WIREGUARD_BASH_SCRIPT :: args) = Fails msg ->
  run_bash_command WIREGUARD_BASH_SCRIPT helper args w p =
  ([SubprocessRun (WIREGUARD_BASH_SCRIPT :: args) false;
    ShowError "Unexpected Error" ("An unexpected error occurred: " ++ msg)%string],
   Ret None).
Proof. intros H. run_case H. reflexivity. Qed.

Lemma run_hangs (args : list string) (w p : bool) :
  helper (WIREGUARD_BASH_SCRIPT :: args) = Hangs ->
  run_bash_command WIREGUARD_BASH_SCRIPT helper args w p
  = ([SubprocessRun (WIREGUARD_BASH_SCRIPT :: args) false], Diverge).
Proof. intros H. run_case H. reflexivity. Qed.

Lemma run_nonzero (args : list string) (w p : bool) (d : nat) (rc : Z)
    (out err : string) :
  helper (WIREGUARD_BASH_SCRIPT :: args) = Exits d rc out err ->
  rc <> 0%Z ->
  run_bash_command WIREGUARD_BASH_SCRIPT helper args w p =
  ([SubprocessRun (WIREGUARD_BASH_SCRIPT :: args) false; ChildExited d;
    ShowError "Operation Failed" (error_message out err)],
   Ret None).
Proof.
  intros H Hrc. apply Z.eqb_neq in Hrc. run_case H.
  unfold try_except, bind; cbn. rewrite Hrc; cbn. reflexivity.
Qed.

Lemma run_zero_quiet (args : list string) (w : bool) (d : nat)
    (out err : string) :
  helper (WIREGUARD_BASH_SCRIPT :: args) = Exits d 0 out err ->
  run_bash_command WIREGUARD_BASH_SCRIPT helper args w false =
  ([SubprocessRun (WIREGUARD_BASH_SCRIPT :: args) false; ChildExited d],
   Ret (Some (PyStr.strip out))).
Proof. intros H. run_case H. reflexivity. Qed.

Lemma run_zero_popup (op : string) (args : list string) (w : bool) (d : nat)
    (out err : string) :
  helper (WIREGUARD_BASH_SCRIPT :: op :: args) = Exits d 0 out err ->
  run_bash_command WIREGUARD_BASH_SCRIPT helper (op :: args) w true =
  ([SubprocessRun (WIREGUARD_BASH_SCRIPT :: op :: args) false; ChildExited d]
   ++ (if PyStr.in_list op ["connect"; "disconnect"; "import"]
       then [ShowInfo "Success"
               (PyStr.or_else (PyStr.strip out)
                  ("Operation '" ++ op ++ "' completed successfully.")%string)]
       else []),
   Ret (Some (PyStr.strip out))).
Proof.
  intros H. run_case H. unfold try_except, bind; cbn.
  destruct (String.eqb op "connect"), (String.eqb op "disconnect"),
    (String.eqb op "import"); reflexivity.
Qed.

Lemma run_zero_no_operation (w : bool) (d : nat) (out err : string) :
  helper [WIREGUARD_BASH_SCRIPT] = Exits d 0 out err ->
  run_bash_command WIREGUARD_BASH_SCRIPT helper [] w true =
  ([SubprocessRun [WIREGUARD_BASH_SCRIPT] false; ChildExited d;
    ShowError "Unexpected Error"
      "An unexpected error occurred: list index out of range"],
   Ret None).
Proof. intros H. run_case H. reflexivity. Qed.

(** The cases above cover every run. *)
Ltac run_cases args p :=
  let H := fresh "H" in
  let Hrc := fresh "Hrc" in
  destruct (helper (WIREGUARD_BASH_SCRIPT :: args)) as [?d ?rc ?out ?err| | |?msg] eqn:H;
  [ match goal with
    | rc : Z |- _ =>
        destruct (Z.eq_dec rc 0) as [->|Hrc];
        [ destruct p;
          [ destruct args as [|?op ?args];
            [ rewrite (run_zero_no_operation _ _ _ _ H)
            | rewrite (run_zero_popup _ _ _ _ _ _ H) ]
          | rewrite (run_zero_quiet _ _ _ _ _ H) ]
        | rewrite (run_nonzero _ _ _ _ _ _ _ H Hrc) ]
    end
  | rewrite (run_hangs _ _ _ H)
  | rewrite (run_not_found _ _ _ H)
  | rewrite (run_fails _ _ _ _ H) ].

(** Every run starts one child, first of all. *)
Lemma run_starts_child (args : list string) (w p : bool) :
  exists rest,
    trace (run_bash_command WIREGUARD_BASH_SCRIPT helper args w p)
    = SubprocessRun (WIREGUARD_BASH_SCRIPT :: args) false :: rest
    /\ processes_started rest = [].
Proof.
  run_cases args p; try destruct (PyStr.in_list _ _); cbn; eauto.
Qed.

(** No exception leaves [run_bash_command]. *)
Lemma run_never_raises (args : list string) (w p : bool) (e : PyExc) :
  outcome (run_bash_command WIREGUARD_BASH_SCRIPT helper args w p) <> Raise e.
Proof. run_cases args p; discriminate. Qed.

(** No thread is started by [run_bash_command]. *)
Lemma run_starts_no_thread (args : list string) (w p : bool) :
  threads_started (trace (run_bash_command WIREGUARD_BASH_SCRIPT helper args w p)) = [].
Proof.
  run_cases args p; try destruct (PyStr.in_list _ _); reflexivity.
Qed.

End Run_bash_command.

(** ** The Executor: [run_bash_command] *)

(** C9.  For every operation and argument list, [run_bash_command]
    starts exactly one child process; its argument vector is the path
    of the helper script followed by the given operation and arguments,
    unchanged, and it is handed to the operating system as a list
    ([shell] is false), not as a command line for a shell. *)
Theorem run_bash_command_argument_vector (WIREGUARD_BASH_SCRIPT : string)
    (helper : Helper) (operation : string) (args : list string)
    (wait_for_completion show_success_popup : bool) :
  let call := run_bash_command WIREGUARD_BASH_SCRIPT helper (operation :: args)
                wait_for_completion show_success_popup in
  processes_started (trace call)
  = [WIREGUARD_BASH_SCRIPT :: operation :: args]
  /\ In (SubprocessRun (WIREGUARD_BASH_SCRIPT :: operation :: args) false)
        (trace call)
  /\ (forall command, ~ In (SubprocessRun command true) (trace call)).
Proof.
  cbv zeta.
  destruct (run_starts_child WIREGUARD_BASH_SCRIPT helper (operation :: args)
              wait_for_completion show_success_popup) as [rest [Ht Hrest]].
  rewrite Ht. cbn [processes_started]. rewrite Hrest.
  split; [reflexivity|]. split; [now left|].
  intros command [H|H]; [discriminate|].
  revert Hrest H. clear. induction rest as [|ev rest IH]; [now intros|].
  destruct ev; cbn; try discriminate; intros Hrest [H|H];
    try discriminate; auto.
Qed.

(** C10.  [run_bash_command] never lets an exception out: it returns the
    stripped standard output when the helper exits with status zero and
    [None] when the script is missing, when the helper exits with
    another status and on any other exception (a helper that never
    exits keeps the call waiting).  Hence [get_vpn_interface_names]
    returns the empty list both when the helper call fails and when a
    successful listing is empty. *)
Theorem run_bash_command_total (WIREGUARD_BASH_SCRIPT : string)
    (helper : Helper) (operation : string) (args : list string)
    (wait_for_completion show_success_popup : bool) :
  let call := run_bash_command WIREGUARD_BASH_SCRIPT helper (operation :: args)
                wait_for_completion show_success_popup in
  let names := get_vpn_interface_names WIREGUARD_BASH_SCRIPT helper in
  (forall e, outcome call <> Raise e)
  /\ match helper (WIREGUARD_BASH_SCRIPT :: operation :: args) with
     | Exits _ rc out _ =>
         outcome call = Ret (if (rc =? 0)%Z then Some (PyStr.strip out) else None)
     | Hangs => outcome call = Diverge
     | NotFound | Fails _ => outcome call = Ret None
     end
  /\ match helper [WIREGUARD_BASH_SCRIPT; "list_interfaces"] with
     | Exits _ rc out _ =>
         if (rc =? 0)%Z && PyStr.truthy (PyStr.strip out)
         then exists interfaces, outcome names = Ret interfaces
         else outcome names = Ret []
     | Hangs => outcome names = Diverge
     | NotFound | Fails _ => outcome names = Ret []
     end.
Proof.
  cbv zeta. split; [intros e; apply run_never_raises|]. split.
  - destruct (helper (WIREGUARD_BASH_SCRIPT :: operation :: args))
      as [d rc out err| | |msg] eqn:H.
    + destruct (Z.eq_dec rc 0) as [->|Hrc].
      * destruct show_success_popup.
        -- now rewrite (run_zero_popup _ _ _ _ _ _ _ _ H).
        -- now rewrite (run_zero_quiet _ _ _ _ _ _ _ H).
      * rewrite (run_nonzero _ _ _ _ _ _ _ _ _ H Hrc).
        apply Z.eqb_neq in Hrc. now rewrite Hrc.
    + now rewrite (run_hangs _ _ _ _ _ H).
    + now rewrite (run_not_found _ _ _ _ _ H).
    + now rewrite (run_fails _ _ _ _ _ _ H).
  - unfold get_vpn_interface_names.
    destruct (helper [WIREGUARD_BASH_SCRIPT; "list_interfaces"])
      as [d rc out err| | |msg] eqn:H.
    + destruct (Z.eq_dec rc 0) as [->|Hrc].
      * rewrite (run_zero_quiet _ _ _ _ _ _ _ H). cbn.
        destruct (PyStr.truthy (PyStr.strip out)); cbn; eauto.
      * rewrite (run_nonzero _ _ _ _ _ _ _ _ _ H Hrc).
        apply Z.eqb_neq in Hrc. now rewrite Hrc.
    + now rewrite (run_hangs _ _ _ _ _ H).
    + now rewrite (run_not_found _ _ _ _ _ H).
    + now rewrite (run_fails _ _ _ _ _ _ H).
Qed.

(** C7, as the code has it.  When the helper exits with a status other
    than zero, [run_bash_command] shows the dialog of the tool failure
    ("Operation Failed"), whose text carries the stripped standard
    error or, when that is empty, the stripped standard output.  When
    the helper script is not found, it shows another dialog ("Error",
    script not found).  The value returned to the caller is [None] in
    both cases: the class of the failure and the diagnostic are shown
    to the user and are not carried to the caller. *)
Theorem run_bash_command_failure_classes (WIREGUARD_BASH_SCRIPT : string)
    (failing absent : Helper) (command_args : list string)
    (wait_for_completion show_success_popup : bool)
    (elapsed : nat) (returncode : Z) (stdout stderr : string) :
  failing (WIREGUARD_BASH_SCRIPT :: command_args)
  = Exits elapsed returncode stdout stderr ->
  returncode <> 0%Z ->
  absent (WIREGUARD_BASH_SCRIPT :: command_args) = NotFound ->
  let tool := run_bash_command WIREGUARD_BASH_SCRIPT failing command_args
                wait_for_completion show_success_popup in
  let infra := run_bash_command WIREGUARD_BASH_SCRIPT absent command_args
                 wait_for_completion show_success_popup in
  errors_shown (trace tool)
  = [ShowError "Operation Failed"
       ("An error occurred during VPN operation:" ++ PyStr.nl ++ PyStr.nl
        ++ (if PyStr.truthy (PyStr.strip stderr)
            then PyStr.strip stderr else PyStr.strip stdout))%string]
  /\ errors_shown (trace infra)
     = [ShowError "Error" (script_not_found WIREGUARD_BASH_SCRIPT)]
  /\ errors_shown (trace tool) <> errors_shown (trace infra)
  /\ outcome tool = Ret None
  /\ outcome infra = Ret None.
Proof.
  intros Hfail Hrc Habsent. cbv zeta.
  rewrite (run_nonzero _ _ _ _ _ _ _ _ _ Hfail Hrc).
  rewrite (run_not_found _ _ _ _ _ Habsent).
  cbn [trace outcome fst snd errors_shown filter is_error_dialog].
  unfold error_message, diagnostic. rewrite or_else_same.
  unfold PyStr.or_else.
  repeat split; discriminate.
Qed.

Lemma run_bash_command_failure_classes_witness :
  errors_shown
    (trace (run_bash_command "/opt/vpn/VPN.sh"
              (fun _ => Exits 2 1 "" "wg-quick: `home' is not a WireGuard interface")
              ["connect"; "home"] true true))
  = [ShowError "Operation Failed"
       ("An error occurred during VPN operation:" ++ PyStr.nl ++ PyStr.nl
        ++ "wg-quick: `home' is not a WireGuard interface")%string].
Proof.
  apply (run_bash_command_failure_classes "/opt/vpn/VPN.sh"
           (fun _ => Exits 2 1 "" "wg-quick: `home' is not a WireGuard interface")
           (fun _ => NotFound) ["connect"; "home"] true true
           2 1%Z "" "wg-quick: `home' is not a WireGuard interface");
    [reflexivity | lia | reflexivity].
Defined.

(** C7 fails on the code.  A helper that exits with status 1 and a
    diagnostic on its standard error, a helper that exits with status 1
    and another diagnostic, and a helper script that is missing give
    the caller one and the same value, [None]: neither the class of the
    failure nor the diagnostic reaches the caller. *)
Lemma run_bash_command_failure_not_carried :
  outcome (run_bash_command "/opt/vpn/VPN.sh"
             (fun _ => Exits 2 1 "" "wg-quick: `home' is not a WireGuard interface")
             ["connect"; "home"] true true)
  = Ret None
  /\ outcome (run_bash_command "/opt/vpn/VPN.sh"
                (fun _ => Exits 2 1 "" "RTNETLINK answers: Operation not permitted")
                ["connect"; "home"] true true)
     = Ret None
  /\ outcome (run_bash_command "/opt/vpn/VPN.sh" (fun _ => NotFound)
                ["connect"; "home"] true true)
     = Ret None.
Proof. repeat split; reflexivity. Qed.

(** C2, as the code has it.  [run_bash_command] sets no timeout: it
    waits for the helper to exit, however long that takes, and what it
    returns does not depend on the time the helper took; when the
    helper never exits, the call never returns and the child is not
    terminated. *)
Theorem run_bash_command_waits (WIREGUARD_BASH_SCRIPT : string)
    (slow quick stuck_helper : Helper) (command_args : list string)
    (wait_for_completion show_success_popup : bool)
    (elapsed elapsed' : nat) (returncode : Z) (stdout stderr : string) :
  slow (WIREGUARD_BASH_SCRIPT :: command_args)
  = Exits elapsed returncode stdout stderr ->
  quick (WIREGUARD_BASH_SCRIPT :: command_args)
  = Exits elapsed' returncode stdout stderr ->
  stuck_helper (WIREGUARD_BASH_SCRIPT :: command_args) = Hangs ->
  let call h := run_bash_command WIREGUARD_BASH_SCRIPT h command_args
                  wait_for_completion show_success_popup in
  In (ChildExited elapsed) (trace (call slow))
  /\ outcome (call slow) = outcome (call quick)
  /\ outcome (call slow) <> Diverge
  /\ call stuck_helper
     = ([SubprocessRun (WIREGUARD_BASH_SCRIPT :: command_args) false], Diverge).
Proof.
  intros Hslow Hquick Hstuck. cbv beta zeta.
  rewrite (run_hangs _ _ _ _ _ Hstuck).
  destruct (Z.eq_dec returncode 0) as [->|Hrc].
  - destruct show_success_popup.
    + destruct command_args as [|op args].
      * rewrite (run_zero_no_operation _ _ _ _ _ _ Hslow),
          (run_zero_no_operation _ _ _ _ _ _ Hquick).
        cbn. intuition discriminate.
      * rewrite (run_zero_popup _ _ _ _ _ _ _ _ Hslow),
          (run_zero_popup _ _ _ _ _ _ _ _ Hquick).
        cbn. intuition discriminate.
    + rewrite (run_zero_quiet _ _ _ _ _ _ _ Hslow),
        (run_zero_quiet _ _ _ _ _ _ _ Hquick).
      cbn. intuition discriminate.
  - rewrite (run_nonzero _ _ _ _ _ _ _ _ _ Hslow Hrc),
      (run_nonzero _ _ _ _ _ _ _ _ _ Hquick Hrc).
    cbn. intuition discriminate.
Qed.

Lemma run_bash_command_waits_witness :
  In (ChildExited 10)
     (trace (run_bash_command "/opt/vpn/VPN.sh" (fun _ => Exits 10 0 "up" "")
               ["connect"; "home"] true true)).
Proof.
  apply (run_bash_command_waits "/opt/vpn/VPN.sh"
           (fun _ => Exits 10 0 "up" "") (fun _ => Exits 5 0 "up" "")
           (fun _ => Hangs) ["connect"; "home"] true true 10 5 0%Z "up" "");
    reflexivity.
Defined.

(** C2 fails on the code.  With a helper that never exits,
    [connect home] never returns: there is no failure result and the
    child is left running.  With a helper that takes 10 time units, the
    call waits the 10 units and reports the success of the helper. *)
Lemma run_bash_command_no_timeout :
  run_bash_command "/opt/vpn/VPN.sh" (fun _ => Hangs) ["connect"; "home"] true true
  = ([SubprocessRun ["/opt/vpn/VPN.sh"; "connect"; "home"] false], Diverge)
  /\ run_bash_command "/opt/vpn/VPN.sh" (fun _ => Exits 10 0 "up" "")
       ["connect"; "home"] true true
     = ([SubprocessRun ["/opt/vpn/VPN.sh"; "connect"; "home"] false;
         ChildExited 10; ShowInfo "Success" "up"],
        Ret (Some "up")).
Proof. split; reflexivity. Qed.

(** ** The Registry Reader: active interface and status *)

(** C3, as the code has it.  [get_active_vpn_interface] returns the
    stripped output of the helper (a name, or the empty string when no
    tunnel is active) and [None] when the helper fails.  [update_status]
    shows "Connected to" the name when the value is a name, and shows
    the same "Disconnected" status, with the disconnect button
    disabled, for the empty string and for [None]. *)
Theorem update_status_shown (WIREGUARD_BASH_SCRIPT : string) (helper : Helper) :
  let active := get_active_vpn_interface WIREGUARD_BASH_SCRIPT helper in
  let shown := status_shown (trace (update_status WIREGUARD_BASH_SCRIPT helper)) in
  match helper [WIREGUARD_BASH_SCRIPT; "get_active"] with
  | Exits _ rc out _ =>
      outcome active = Ret (if (rc =? 0)%Z then Some (PyStr.strip out) else None)
      /\ shown
         = if (rc =? 0)%Z && PyStr.truthy (PyStr.strip out)
           then [StatusLabelConfig ("Status: Connected to " ++ PyStr.strip out)%string;
                 DisconnectButtonConfig normal]
           else [StatusLabelConfig "Status: Disconnected";
                 DisconnectButtonConfig disabled]
  | Hangs => outcome active = Diverge /\ shown = []
  | NotFound | Fails _ =>
      outcome active = Ret None
      /\ shown = [StatusLabelConfig "Status: Disconnected";
                  DisconnectButtonConfig disabled]
  end.
Proof.
  cbv zeta. unfold update_status, get_active_vpn_interface.
  destruct (helper [WIREGUARD_BASH_SCRIPT; "get_active"])
    as [d rc out err| | |msg] eqn:H.
  - destruct (Z.eq_dec rc 0) as [->|Hrc].
    + rewrite (run_zero_quiet _ _ _ _ _ _ _ H). cbn.
      destruct (PyStr.strip out); cbn; split; reflexivity.
    + rewrite (run_nonzero _ _ _ _ _ _ _ _ _ H Hrc).
      apply Z.eqb_neq in Hrc. rewrite Hrc. cbn. split; reflexivity.
  - rewrite (run_hangs _ _ _ _ _ H). split; reflexivity.
  - rewrite (run_not_found _ _ _ _ _ H). split; reflexivity.
  - rewrite (run_fails _ _ _ _ _ _ H). split; reflexivity.
Qed.

(** C3 fails on the code.  A helper that reports no active tunnel and a
    helper script that is missing give the same status: the label says
    "Disconnected" and the button is disabled in both cases. *)
Lemma update_status_same_for_none_and_unreachable :
  outcome (get_active_vpn_interface "/opt/vpn/VPN.sh" (fun _ => Exits 1 0 "" ""))
  = Ret (Some EmptyString)
  /\ outcome (get_active_vpn_interface "/opt/vpn/VPN.sh" (fun _ => NotFound))
     = Ret None
  /\ status_shown (trace (update_status "/opt/vpn/VPN.sh" (fun _ => Exits 1 0 "" "")))
     = status_shown (trace (update_status "/opt/vpn/VPN.sh" (fun _ => NotFound))).
Proof. repeat split; reflexivity. Qed.

(** ** The Registry Reader: the list of interfaces *)

Lemma split_not_nil (sep : ascii) (s : string) : PyStr.split sep s <> [].
Proof.
  destruct s as [|c s]; cbn; [discriminate|].
  destruct (Ascii.eqb c sep); [discriminate|].
  destruct (PyStr.split sep s); discriminate.
Qed.

Lemma join_cons (sep : ascii) (x y : string) (ys : list string) :
  join sep (x :: y :: ys) = (x ++ String sep (join sep (y :: ys)))%string.
Proof. reflexivity. Qed.

(** The fields of [split], put together again with the separator, are
    the string that was split. *)
Lemma join_split (sep : ascii) (s : string) : join sep (PyStr.split sep s) = s.
Proof.
  induction s as [|c s IH]; [reflexivity|].
  cbn [PyStr.split]. pose proof (split_not_nil sep s) as Hne.
  destruct (Ascii.eqb_spec c sep) as [->|Hc];
    destruct (PyStr.split sep s) as [|field fields]; try congruence.
  - rewrite join_cons, IH. reflexivity.
  - rewrite <- IH. destruct fields; reflexivity.
Qed.

Lemma rstrip_rstrip (s : string) : PyStr.rstrip (PyStr.rstrip s) = PyStr.rstrip s.
Proof.
  induction s as [|c s IH]; [reflexivity|].
  cbn [PyStr.rstrip]. destruct (PyStr.rstrip s) as [|d r] eqn:E.
  - destruct (PyStr.isspace c) eqn:Hc; [reflexivity|].
    cbn. now rewrite Hc.
  - cbn [PyStr.rstrip] in *. now rewrite IH.
Qed.

Lemma lstrip_head (s : string) :
  match PyStr.lstrip s with
  | EmptyString => True
  | String c _ => PyStr.isspace c = false
  end.
Proof.
  induction s as [|c s IH]; cbn; [exact I|].
  destruct (PyStr.isspace c) eqn:Hc; [exact IH | exact Hc].
Qed.

Lemma rstrip_head (c : ascii) (s : string) :
  PyStr.isspace c = false -> exists r, PyStr.rstrip (String c s) = String c r.
Proof.
  intros Hc. cbn. destruct (PyStr.rstrip s); [rewrite Hc|]; eauto.
Qed.

Lemma strip_Trimmed (s : string) : Trimmed (PyStr.strip s).
Proof.
  unfold Trimmed, PyStr.strip. pose proof (lstrip_head s) as Hh.
  destruct (PyStr.lstrip s) as [|c t]; [reflexivity|].
  destruct (rstrip_head c t Hh) as [r Hr].
  pose proof (rstrip_rstrip (String c t)) as Hi.
  rewrite Hr in Hi |- *. cbn [PyStr.lstrip]. rewrite Hh. exact Hi.
Qed.

Lemma filter_map_strip (lines : list string) :
  map PyStr.strip (filter (fun line => PyStr.truthy (PyStr.strip line)) lines)
  = filter PyStr.truthy (map PyStr.strip lines).
Proof.
  induction lines as [|line lines IH]; [reflexivity|].
  cbn. destruct (PyStr.truthy (PyStr.strip line)); cbn; now rewrite IH.
Qed.

(** What [get_vpn_interface_names] returns when the helper succeeds. *)
Lemma get_vpn_interface_names_value (WIREGUARD_BASH_SCRIPT : string)
    (helper : Helper) (elapsed : nat) (stdout stderr : string) :
  helper [WIREGUARD_BASH_SCRIPT; "list_interfaces"] = Exits elapsed 0 stdout stderr ->
  get_vpn_interface_names WIREGUARD_BASH_SCRIPT helper
  = ([SubprocessRun [WIREGUARD_BASH_SCRIPT; "list_interfaces"] false;
      ChildExited elapsed],
     Ret (PyStr.sorted
            (filter PyStr.truthy
               (map PyStr.strip (PyStr.split PyStr.LF (PyStr.strip stdout)))))).
Proof.
  intros H. unfold get_vpn_interface_names.
  rewrite (run_zero_quiet _ _ _ _ _ _ _ H). rewrite <- filter_map_strip.
  destruct (PyStr.strip stdout) as [|c t]; reflexivity.
Qed.

(** C6, as the code has it.  [get_vpn_interface_names] reads the output
    of [list_interfaces] one name per line, strips every line, drops
    the lines that are blank and returns the others in ascending order
    of the strings.  No line is tested as a tunnel name: every line
    that is not blank is returned. *)
Theorem get_vpn_interface_names_lines (WIREGUARD_BASH_SCRIPT : string)
    (helper : Helper) (elapsed : nat) (stdout stderr : string) :
  helper [WIREGUARD_BASH_SCRIPT; "list_interfaces"] = Exits elapsed 0 stdout stderr ->
  let lines := PyStr.split PyStr.LF (PyStr.strip stdout) in
  exists interfaces,
    outcome (get_vpn_interface_names WIREGUARD_BASH_SCRIPT helper) = Ret interfaces
    /\ join PyStr.LF lines = PyStr.strip stdout
    /\ Permutation interfaces (filter PyStr.truthy (map PyStr.strip lines))
    /\ StronglySorted (fun a b => String.leb a b = true) interfaces
    /\ Forall Trimmed interfaces
    /\ (forall name,
          In name interfaces
          <-> name <> EmptyString
              /\ exists line, In line lines /\ PyStr.strip line = name).
Proof.
  intros H lines. eexists.
  rewrite (get_vpn_interface_names_value _ _ _ _ _ H). fold lines.
  split; [reflexivity|]. split; [apply join_split|].
  split; [symmetry; apply sorted_Permutation|].
  split; [apply sorted_StronglySorted|].
  assert (Hin : forall name,
             In name (PyStr.sorted (filter PyStr.truthy (map PyStr.strip lines)))
             <-> name <> EmptyString
                 /\ exists line, In line lines /\ PyStr.strip line = name).
  { intros name. split.
    - intros Hn.
      apply (Permutation_in _ (Permutation_sym (sorted_Permutation _))) in Hn.
      apply filter_In in Hn. destruct Hn as [Hn Ht].
      apply in_map_iff in Hn. destruct Hn as [line [Hl Hi]].
      split; [now apply truthy_true | eauto].
    - intros [Hne [line [Hi Hl]]].
      apply (Permutation_in _ (sorted_Permutation _)).
      apply filter_In. split; [|now apply truthy_true].
      apply in_map_iff. eauto. }
  split; [|exact Hin].
  apply Forall_forall. intros name Hn. apply Hin in Hn.
  destruct Hn as [_ [line [_ <-]]]. apply strip_Trimmed.
Qed.

Lemma get_vpn_interface_names_lines_witness :
  exists interfaces,
    outcome (get_vpn_interface_names "/opt/vpn/VPN.sh"
               (fun _ => Exits 1 0 ("work" ++ PyStr.nl ++ " home ") ""))
    = Ret interfaces
    /\ Permutation interfaces ["work"; "home"].
Proof.
  destruct (get_vpn_interface_names_lines "/opt/vpn/VPN.sh"
              (fun _ => Exits 1 0 ("work" ++ PyStr.nl ++ " home ") "")
              1 ("work" ++ PyStr.nl ++ " home ") "" eq_refl)
    as [interfaces [Ho [_ [Hp _]]]].
  exists interfaces. split; [exact Ho | exact Hp].
Defined.

(** C6 fails on the code.  The lines [../etc] and [work/x] are not
    tunnel names (they hold [..] and [/]), and both are returned. *)
Lemma get_vpn_interface_names_keeps_invalid :
  outcome (get_vpn_interface_names "/opt/vpn/VPN.sh"
             (fun _ => Exits 1 0
                         ("home" ++ PyStr.nl ++ "../etc" ++ PyStr.nl ++ "work/x") ""))
  = Ret ["../etc"; "home"; "work/x"]
  /\ PyStr.contains ".." "../etc" = true
  /\ PyStr.contains "/" "work/x" = true.
Proof. repeat split; reflexivity. Qed.

(** ** Traces *)

Lemma trace_bind {A B : Type} (m : M A) (f : A -> M B) :
  trace (bind m f)
  = trace m ++ match outcome m with
               | Ret a => trace (f a)
               | _ => []
               end.
Proof.
  unfold bind, trace, outcome. destruct (snd m); cbn; now rewrite ?app_nil_r.
Qed.

Lemma outcome_bind {A B : Type} (m : M A) (f : A -> M B) :
  outcome (bind m f)
  = match outcome m with
    | Ret a => outcome (f a)
    | Raise e => Raise e
    | Diverge => Diverge
    end.
Proof. unfold bind, outcome. destruct (snd m); reflexivity. Qed.

Lemma threads_started_app (t t' : list Event) :
  threads_started (t ++ t') = threads_started t ++ threads_started t'.
Proof.
  induction t as [|ev t IH]; [reflexivity|].
  destruct ev; cbn; now rewrite IH.
Qed.

Lemma processes_started_app (t t' : list Event) :
  processes_started (t ++ t') = processes_started t ++ processes_started t'.
Proof.
  induction t as [|ev t IH]; [reflexivity|].
  destruct ev; cbn; now rewrite IH.
Qed.

(** [get_vpn_interface_names] starts the listing, and nothing else. *)
Lemma get_vpn_interface_names_trace (WIREGUARD_BASH_SCRIPT : string)
    (helper : Helper) :
  threads_started (trace (get_vpn_interface_names WIREGUARD_BASH_SCRIPT helper)) = []
  /\ processes_started (trace (get_vpn_interface_names WIREGUARD_BASH_SCRIPT helper))
     = [[WIREGUARD_BASH_SCRIPT; "list_interfaces"]]
  /\ forall e, outcome (get_vpn_interface_names WIREGUARD_BASH_SCRIPT helper) <> Raise e.
Proof.
  unfold get_vpn_interface_names.
  rewrite trace_bind, threads_started_app, processes_started_app, outcome_bind.
  rewrite run_starts_no_thread.
  destruct (run_starts_child WIREGUARD_BASH_SCRIPT helper ["list_interfaces"] true false)
    as [rest [Ht Hrest]].
  rewrite Ht. cbn [processes_started]. rewrite Hrest.
  pose proof (run_never_raises WIREGUARD_BASH_SCRIPT helper ["list_interfaces"] true false)
    as Hnr.
  destruct (outcome (run_bash_command _ _ _ _ _)) as [[out|]|e|];
    try destruct (PyStr.truthy out); cbn; repeat split; try discriminate.
  now destruct (Hnr e).
Qed.

(** The names of the registry are not empty. *)
Lemma get_vpn_interface_names_not_empty (WIREGUARD_BASH_SCRIPT : string)
    (helper : Helper) (interfaces : list string) (name : string) :
  outcome (get_vpn_interface_names WIREGUARD_BASH_SCRIPT helper) = Ret interfaces ->
  In name interfaces -> name <> EmptyString.
Proof.
  destruct (helper [WIREGUARD_BASH_SCRIPT; "list_interfaces"])
    as [d rc out err| | |msg] eqn:H.
  - destruct (Z.eq_dec rc 0) as [->|Hrc].
    + rewrite (get_vpn_interface_names_value _ _ _ _ _ H). cbn.
      intros [= <-] Hin.
      apply (Permutation_in _ (Permutation_sym (sorted_Permutation _))) in Hin.
      apply filter_In in Hin. now apply truthy_true.
    + unfold get_vpn_interface_names.
      rewrite (run_nonzero _ _ _ _ _ _ _ _ _ H Hrc). cbn. now intros [= <-].
  - unfold get_vpn_interface_names. rewrite (run_hangs _ _ _ _ _ H). discriminate.
  - unfold get_vpn_interface_names. rewrite (run_not_found _ _ _ _ _ H).
    cbn. now intros [= <-].
  - unfold get_vpn_interface_names. rewrite (run_fails _ _ _ _ _ _ H).
    cbn. now intros [= <-].
Qed.

(** ** The import of a configuration *)

Lemma long_name_length (n : nat) : String.length (long_name n) = n.
Proof. induction n; cbn; congruence. Qed.

Lemma long_name_plain (n : nat) :
  PyStr.contains "/" (long_name n) = false
  /\ PyStr.contains ".." (long_name n) = false.
Proof.
  induction n as [|n [IH1 IH2]]; [split; reflexivity|].
  split; cbn [long_name PyStr.contains].
  - now rewrite IH1.
  - now rewrite IH2.
Qed.

(** What [import_config_gui] does on a name, once a file was chosen. *)
Lemma import_config_gui_name (source_file name : string) :
  source_file <> EmptyString ->
  import_config_gui source_file (Some name)
  = if negb (PyStr.truthy name)
    then ([ShowError "Error"
             "Configuration name cannot be empty. Operation cancelled."], Ret tt)
    else if PyStr.contains "/" name || PyStr.contains ".." name
    then ([ShowError "Invalid Name" "VPN name cannot contain '/' or '..'"], Ret tt)
    else ([ThreadStart ["import"; source_file; name];
           RootAfter 1000 cb_update_status], Ret tt).
Proof.
  intros Hs. apply truthy_true in Hs. unfold import_config_gui.
  rewrite Hs. cbn. destruct (PyStr.truthy name); [|reflexivity].
  cbn. destruct (PyStr.contains "/" name || PyStr.contains ".." name); reflexivity.
Qed.

(** C4, as the code has it.  [import_config_gui] accepts a name, and
    starts the import with it, if and only if the name is not empty and
    holds neither [/] nor [..]; the length of the name is not tested.
    A rejected name starts no thread and no child process. *)
Theorem import_config_gui_accepts (source_file name : string) :
  source_file <> EmptyString ->
  let call := import_config_gui source_file (Some name) in
  (threads_started (trace call) = [["import"; source_file; name]]
   <-> name <> EmptyString /\ ~ Substring "/" name /\ ~ Substring ".." name)
  /\ (threads_started (trace call) = []
      <-> name = EmptyString \/ Substring "/" name \/ Substring ".." name)
  /\ processes_started (trace call) = []
  /\ outcome call = Ret tt.
Proof.
  intros Hs. cbv zeta. rewrite (import_config_gui_name _ _ Hs).
  rewrite <- !contains_Substring, <- truthy_true.
  destruct name as [|c name]; cbn [PyStr.truthy negb].
  - cbn. repeat split; try tauto; try discriminate.
  - destruct (PyStr.contains "/" (String c name)) eqn:H1;
      destruct (PyStr.contains ".." (String c name)) eqn:H2; cbn;
      repeat split; try tauto; try discriminate; try congruence;
      intuition (try discriminate; try congruence).
Qed.

Lemma import_config_gui_accepts_witness :
  threads_started (trace (import_config_gui "/tmp/wg0.conf" (Some "../etc"))) = []
  <-> "../etc" = EmptyString \/ Substring "/" "../etc" \/ Substring ".." "../etc".
Proof.
  apply (import_config_gui_accepts "/tmp/wg0.conf" "../etc"). discriminate.
Defined.

(** C4 fails on the code.  Whatever the bound on the length, a name at
    least that long is accepted: acceptance is not the test of the
    specification for any bound. *)
Lemma import_config_gui_no_length_bound :
  ~ exists bound : nat,
      forall name : string,
        threads_started (trace (import_config_gui "/tmp/wg0.conf" (Some name)))
        = [["import"; "/tmp/wg0.conf"; name]]
        <-> spec_name_valid bound name.
Proof.
  intros [bound H]. specialize (H (long_name (S bound))).
  destruct (long_name_plain (S bound)) as [H1 H2].
  rewrite import_config_gui_name in H by discriminate.
  rewrite H1, H2 in H. cbn in H.
  destruct H as [H _]. destruct (H eq_refl) as [_ [_ [_ Hlen]]].
  change (String "a" (long_name bound)) with (long_name (S bound)) in Hlen.
  rewrite long_name_length in Hlen. lia.
Qed.

(** C5, as the code has it.  [import_config_gui] rejects the empty name
    and the names that hold [/] or [..] before anything is handed to
    the helper.  It does not read the registry: no child process is
    started by the handler, and a name that is already in the registry
    is handed to the import of the helper like any other. *)
Theorem import_config_gui_ignores_registry (WIREGUARD_BASH_SCRIPT : string)
    (helper : Helper) (registry : list string)
    (source_file present proposed : string) :
  source_file <> EmptyString ->
  outcome (get_vpn_interface_names WIREGUARD_BASH_SCRIPT helper) = Ret registry ->
  In present registry ->
  let import name :=
    handle WIREGUARD_BASH_SCRIPT helper (RequestImport source_file (Some name)) in
  threads_started (trace (import present))
  = (if PyStr.contains "/" present || PyStr.contains ".." present
     then [] else [["import"; source_file; present]])
  /\ processes_started (trace (import present)) = []
  /\ (threads_started (trace (import proposed)) = []
      <-> proposed = EmptyString \/ Substring "/" proposed \/ Substring ".." proposed).
Proof.
  intros Hs Hreg Hin. cbv beta zeta. cbn [handle].
  pose proof (get_vpn_interface_names_not_empty _ _ _ _ Hreg Hin) as Hne.
  apply truthy_true in Hne.
  rewrite !(import_config_gui_name _ _ Hs), Hne. cbn [negb].
  split; [|split].
  - destruct (PyStr.contains "/" present || PyStr.contains ".." present); reflexivity.
  - destruct (PyStr.contains "/" present || PyStr.contains ".." present); reflexivity.
  - rewrite <- !contains_Substring.
    destruct proposed as [|c proposed]; cbn [PyStr.truthy negb].
    + cbn. tauto.
    + destruct (PyStr.contains "/" (String c proposed));
        destruct (PyStr.contains ".." (String c proposed)); cbn;
        intuition (try discriminate; try congruence).
Qed.

Lemma import_config_gui_ignores_registry_witness :
  threads_started
    (trace (handle "/opt/vpn/VPN.sh" (fun _ => Exits 1 0 "home" "")
              (RequestImport "/tmp/wg0.conf" (Some "home"))))
  = [["import"; "/tmp/wg0.conf"; "home"]].
Proof.
  apply (import_config_gui_ignores_registry "/opt/vpn/VPN.sh"
           (fun _ => Exits 1 0 "home" "") ["home"] "/tmp/wg0.conf" "home" "home");
    [discriminate | reflexivity | now left].
Defined.

(** C5 fails on the code.  The registry holds [home]; the import of a
    file under the name [home] is not rejected: the thread that runs
    the import of the helper is started. *)
Lemma import_config_gui_accepts_collision :
  outcome (get_vpn_interface_names "/opt/vpn/VPN.sh"
             (fun _ => Exits 1 0 ("home" ++ PyStr.nl ++ "work") ""))
  = Ret ["home"; "work"]
  /\ import_config_gui "/tmp/wg0.conf" (Some "home")
     = ([ThreadStart ["import"; "/tmp/wg0.conf"; "home"];
         RootAfter 1000 cb_update_status], Ret tt).
Proof. split; reflexivity. Qed.

(** ** The connection dialog *)

Lemma do_connect_value (selected_name : string) :
  do_connect selected_name
  = if PyStr.truthy selected_name
    then ([ThreadStart ["connect"; selected_name]; ToplevelDestroy;
           RootAfter 1000 cb_update_status], Ret true)
    else ([ShowWarning "Selection Required" "Please select a VPN interface."],
          Ret false).
Proof. unfold do_connect. destruct (PyStr.truthy selected_name); reflexivity. Qed.

Lemma nth_In_or_default {A : Type} (n : nat) (xs : list A) (d : A) :
  In d xs -> In (nth n xs d) xs.
Proof.
  intros Hd. destruct (Nat.lt_ge_cases n (length xs)) as [Hlt|Hge].
  - now apply nth_In.
  - now rewrite nth_overflow.
Qed.

(** The window starts at most one thread, a [connect] to one of the
    values of the combobox, and no child process. *)
Lemma wait_window_threads (interfaces : list string) (actions : list DialogAction) :
  forall selected : string,
    In selected interfaces ->
    (threads_started (trace (wait_window interfaces selected actions)) = []
     \/ exists name, In name interfaces
          /\ threads_started (trace (wait_window interfaces selected actions))
             = [["connect"; name]])
    /\ processes_started (trace (wait_window interfaces selected actions)) = []
    /\ outcome (wait_window interfaces selected actions) = Ret tt.
Proof.
  induction actions as [|[position|] actions IH]; intros selected Hsel.
  - cbn. auto.
  - cbn [wait_window]. apply IH. now apply nth_In_or_default.
  - cbn [wait_window]. rewrite do_connect_value.
    destruct (PyStr.truthy selected).
    + cbn. split; [right; eauto | auto].
    + specialize (IH selected Hsel). unfold bind. cbn.
      unfold trace, outcome in IH. exact IH.
Qed.

(** The threads and child processes of [connect_vpn_gui]. *)
Lemma connect_vpn_gui_threads_aux (WIREGUARD_BASH_SCRIPT : string)
    (helper : Helper) (interfaces : list string) (actions : list DialogAction) :
  outcome (get_vpn_interface_names WIREGUARD_BASH_SCRIPT helper) = Ret interfaces ->
  let dialog := connect_vpn_gui WIREGUARD_BASH_SCRIPT helper actions in
  (threads_started (trace dialog) = []
   \/ exists name, In name interfaces
        /\ threads_started (trace dialog) = [["connect"; name]])
  /\ processes_started (trace dialog) = [[WIREGUARD_BASH_SCRIPT; "list_interfaces"]]
  /\ outcome dialog = Ret tt.
Proof.
  intros Hreg. cbv zeta.
  destruct (get_vpn_interface_names_trace WIREGUARD_BASH_SCRIPT helper)
    as [Hth [Hpr _]].
  unfold connect_vpn_gui.
  rewrite trace_bind, outcome_bind, threads_started_app, processes_started_app.
  rewrite Hth, Hpr, Hreg. cbn [app].
  destruct interfaces as [|first rest].
  - cbn. auto.
  - rewrite trace_bind, outcome_bind. cbn [emit outcome trace fst snd app].
    cbn [threads_started processes_started].
    destruct (wait_window_threads (first :: rest) actions first (or_introl eq_refl))
      as [Hw [Hp Ho]].
    unfold trace, outcome in *. rewrite Hp, Ho. auto.
Qed.




(** ** The main loop: operations in flight *)

Lemma disconnect_vpn_gui_threads (WIREGUARD_BASH_SCRIPT : string)
    (helper : Helper) (answer : bool) :
  threads_started (trace (disconnect_vpn_gui WIREGUARD_BASH_SCRIPT helper answer)) = []
  \/ exists name,
       threads_started (trace (disconnect_vpn_gui WIREGUARD_BASH_SCRIPT helper answer))
       = [["disconnect"; name]].
Proof.
  unfold disconnect_vpn_gui, get_active_vpn_interface.
  rewrite trace_bind, threads_started_app, run_starts_no_thread. cbn [app].
  destruct (outcome (run_bash_command _ _ _ _ _)) as [[name|]|e|]; cbn; auto.
  destruct (PyStr.truthy name); cbn; auto.
  destruct answer; cbn; eauto.
Qed.

(** A handler starts at most one thread, and the thread runs one of the
    operations that change the host. *)
Lemma handle_threads (WIREGUARD_BASH_SCRIPT : string) (helper : Helper)
    (r : Request) :
  threads_started (trace (handle WIREGUARD_BASH_SCRIPT helper r)) = []
  \/ exists command_args,
       threads_started (trace (handle WIREGUARD_BASH_SCRIPT helper r)) = [command_args]
       /\ mutating command_args = true.
Proof.
  destruct r as [actions|answer|source_file config_name]; cbn [handle].
  - destruct (get_vpn_interface_names_trace WIREGUARD_BASH_SCRIPT helper)
      as [Hth [_ Hnr]].
    destruct (outcome (get_vpn_interface_names WIREGUARD_BASH_SCRIPT helper))
      as [interfaces|e|] eqn:Hreg.
    + pose proof (connect_vpn_gui_threads_aux WIREGUARD_BASH_SCRIPT helper
                    interfaces actions Hreg) as Haux.
      cbv zeta in Haux. destruct Haux as [[H|[name [_ H]]] _]; [now left|].
      right. rewrite H. eauto.
    + now destruct (Hnr e).
    + left. unfold connect_vpn_gui.
      rewrite trace_bind, threads_started_app, Hth, Hreg. reflexivity.
  - destruct (disconnect_vpn_gui_threads WIREGUARD_BASH_SCRIPT helper answer)
      as [H|[name H]]; [now left|].
    right. rewrite H. eauto.
  - unfold import_config_gui.
    destruct (PyStr.truthy source_file); cbn; auto.
    destruct config_name as [name|]; cbn; auto.
    destruct (PyStr.truthy name); cbn; auto.
    destruct (PyStr.contains "/" name || PyStr.contains ".." name); cbn; eauto.
Qed.

Lemma mainloop_presses (WIREGUARD_BASH_SCRIPT : string)
    (requests : list (Helper * Request)) :
  forall a : App,
    stuck a = false ->
    Forall (fun hr => returns (handle WIREGUARD_BASH_SCRIPT (fst hr) (snd hr)) = true)
           requests ->
    mainloop WIREGUARD_BASH_SCRIPT a
      (map (fun hr => ButtonPressed (fst hr) (snd hr)) requests)
    = mkApp (in_flight a
             ++ flat_map (fun hr => threads_started
                                      (trace (handle WIREGUARD_BASH_SCRIPT (fst hr) (snd hr))))
                         requests)
            false.
Proof.
  unfold mainloop.
  induction requests as [|[h r] requests IH]; intros a Ha Hret.
  - cbn. rewrite app_nil_r. destruct a; cbn in *. now subst.
  - inversion Hret as [|? ? Hr Hrest]; subst. cbn [map fold_left occur fst snd].
    cbn [fst snd] in Hr. unfold callback. rewrite Ha, Hr. cbn [negb].
    rewrite IH; [|reflexivity|exact Hrest].
    cbn [in_flight flat_map fst snd]. now rewrite app_assoc.
Qed.

(** C1, as the code has it.  No lock orders the operations.  Every
    press of a button runs its handler whatever is in flight, and the
    thread the handler starts (at most one, running connect, disconnect
    or import) is added to those in flight at once: after a sequence of
    requests with no thread finished in between, all the operations
    they started are in flight together, and none is turned away as
    busy. *)
Theorem mainloop_starts_every_request (WIREGUARD_BASH_SCRIPT : string)
    (a : App) (requests : list (Helper * Request)) :
  stuck a = false ->
  Forall (fun hr => returns (handle WIREGUARD_BASH_SCRIPT (fst hr) (snd hr)) = true)
         requests ->
  let started hr :=
    threads_started (trace (handle WIREGUARD_BASH_SCRIPT (fst hr) (snd hr))) in
  let after :=
    mainloop WIREGUARD_BASH_SCRIPT a
      (map (fun hr => ButtonPressed (fst hr) (snd hr)) requests) in
  in_flight after = in_flight a ++ flat_map started requests
  /\ stuck after = false
  /\ Forall (fun hr => length (started hr) <= 1
                       /\ forallb mutating (started hr) = true) requests.
Proof.
  intros Ha Hret. cbv zeta.
  rewrite (mainloop_presses _ _ _ Ha Hret). cbn [in_flight stuck].
  split; [reflexivity|]. split; [reflexivity|].
  apply Forall_forall. intros [h r] _. cbn [fst snd].
  destruct (handle_threads WIREGUARD_BASH_SCRIPT h r) as [H|[args [H Hm]]];
    rewrite H; cbn; [auto | rewrite Hm; auto].
Qed.

Lemma mainloop_starts_every_request_witness :
  in_flight
    (mainloop "/opt/vpn/VPN.sh" App_start
       (map (fun hr => ButtonPressed (fst hr) (snd hr))
          [(fun _ => Exits 1 0 "home" "", RequestDisconnect true);
           (fun _ => NotFound, RequestImport "/tmp/wg0.conf" (Some "office"))]))
  = [["disconnect"; "home"]; ["import"; "/tmp/wg0.conf"; "office"]].
Proof.
  apply (mainloop_starts_every_request "/opt/vpn/VPN.sh" App_start
           [(fun _ => Exits 1 0 "home" "", RequestDisconnect true);
            (fun _ => NotFound, RequestImport "/tmp/wg0.conf" (Some "office"))]);
    [reflexivity | repeat constructor].
Defined.

(** C1 fails on the code.  Two connects, to [home] and to [work], are
    confirmed one after the other while no thread has finished: both
    are handed to the helper and are in flight together; the second is
    not turned away. *)
Lemma mainloop_two_connects_in_flight :
  in_flight
    (mainloop "/opt/vpn/VPN.sh" App_start
       [ButtonPressed (fun _ => Exits 1 0 ("home" ++ PyStr.nl ++ "work") "")
          (RequestConnect [ClickConnect]);
        ButtonPressed (fun _ => Exits 1 0 ("home" ++ PyStr.nl ++ "work") "")
          (RequestConnect [Select 1; ClickConnect])])
  = [["connect"; "home"]; ["connect"; "work"]]
  /\ forallb mutating [["connect"; "home"]; ["connect"; "work"]] = true
  /\ trace (handle "/opt/vpn/VPN.sh"
              (fun _ => Exits 1 0 ("home" ++ PyStr.nl ++ "work") "")
              (RequestConnect [Select 1; ClickConnect]))
     = [SubprocessRun ["/opt/vpn/VPN.sh"; "list_interfaces"] false;
        ChildExited 1;
        ToplevelCreate ["home"; "work"] "home";
        ThreadStart ["connect"; "work"];
        ToplevelDestroy;
        RootAfter 1000 cb_update_status].
Proof. repeat split; reflexivity. Qed.


(** * Further properties of the module *)

(** ** Dialogs of [run_bash_command] *)

(** X1.  When the helper exits with status zero, [run_bash_command]
    shows the "Success" dialog exactly when the popup is asked for and
    the operation is connect, disconnect or import.  The dialog carries
    the stripped output of the helper, or the sentence "Operation
    '<op>' completed successfully." when that output is blank.  No
    error dialog is shown. *)
Theorem run_bash_command_success_popup (WIREGUARD_BASH_SCRIPT : string)
    (helper : Helper) (operation : string) (args : list string)
    (wait_for_completion show_success_popup : bool)
    (elapsed : nat) (stdout stderr : string) :
  helper (WIREGUARD_BASH_SCRIPT :: operation :: args)
  = Exits elapsed 0 stdout stderr ->
  let call := run_bash_command WIREGUARD_BASH_SCRIPT helper (operation :: args)
                wait_for_completion show_success_popup in
  infos_shown (trace call)
  = (if show_success_popup
        && PyStr.in_list operation ["connect"; "disconnect"; "import"]
     then [ShowInfo "Success"
             (if PyStr.truthy (PyStr.strip stdout)
              then PyStr.strip stdout
              else ("Operation '" ++ operation ++ "' completed successfully.")%string)]
     else [])
  /\ errors_shown (trace call) = [].
Proof.
  intros H. cbv zeta. destruct show_success_popup.
  - rewrite (run_zero_popup _ _ _ _ _ _ _ _ H). cbn [andb].
    destruct (PyStr.in_list operation ["connect"; "disconnect"; "import"]);
      split; reflexivity.
  - rewrite (run_zero_quiet _ _ _ _ _ _ _ H). split; reflexivity.
Qed.

Lemma run_bash_command_success_popup_witness :
  infos_shown
    (trace (run_bash_command "/opt/vpn/VPN.sh" (fun _ => Exits 2 0 " " "")
              ["import"; "/tmp/wg0.conf"; "office"] true true))
  = [ShowInfo "Success" "Operation 'import' completed successfully."].
Proof.
  apply (run_bash_command_success_popup "/opt/vpn/VPN.sh"
           (fun _ => Exits 2 0 " " "") "import" ["/tmp/wg0.conf"; "office"]
           true true 2 " " "").
  reflexivity.
Defined.

(** X2.  A call of [run_bash_command] that comes back reports every
    failure once: it returns [None] with exactly one error dialog and
    no success dialog, or it returns a string with no error dialog.
    This holds for every argument list, the empty one included. *)
Theorem run_bash_command_reports_failure_once (WIREGUARD_BASH_SCRIPT : string)
    (helper : Helper) (command_args : list string)
    (wait_for_completion show_success_popup : bool) :
  helper (WIREGUARD_BASH_SCRIPT :: command_args) <> Hangs ->
  let call := run_bash_command WIREGUARD_BASH_SCRIPT helper command_args
                wait_for_completion show_success_popup in
  (outcome call = Ret None
   /\ length (errors_shown (trace call)) = 1
   /\ infos_shown (trace call) = [])
  \/ (exists value, outcome call = Ret (Some value)
        /\ errors_shown (trace call) = []).
Proof.
  intros Hh. cbv zeta.
  destruct (helper (WIREGUARD_BASH_SCRIPT :: command_args))
    as [d rc out err| | |msg] eqn:H; [| congruence | |].
  - destruct (Z.eq_dec rc 0) as [->|Hrc].
    + destruct show_success_popup.
      * destruct command_args as [|op args].
        -- rewrite (run_zero_no_operation _ _ _ _ _ _ H). left. now cbn.
        -- rewrite (run_zero_popup _ _ _ _ _ _ _ _ H). right.
           exists (PyStr.strip out). split; [reflexivity|].
           destruct (PyStr.in_list op _); reflexivity.
      * rewrite (run_zero_quiet _ _ _ _ _ _ _ H). right. now eexists.
    + rewrite (run_nonzero _ _ _ _ _ _ _ _ _ H Hrc). left. now cbn.
  - rewrite (run_not_found _ _ _ _ _ H). left. now cbn.
  - rewrite (run_fails _ _ _ _ _ _ H). left. now cbn.
Qed.

Lemma run_bash_command_reports_failure_once_witness :
  (outcome (run_bash_command "/opt/vpn/VPN.sh" (fun _ => Fails "Permission denied")
              ["get_active"] true false) = Ret None
   /\ length (errors_shown
                (trace (run_bash_command "/opt/vpn/VPN.sh"
                          (fun _ => Fails "Permission denied")
                          ["get_active"] true false))) = 1
   /\ infos_shown
        (trace (run_bash_command "/opt/vpn/VPN.sh"
                  (fun _ => Fails "Permission denied")
                  ["get_active"] true false)) = [])
  \/ (exists value,
        outcome (run_bash_command "/opt/vpn/VPN.sh"
                   (fun _ => Fails "Permission denied")
                   ["get_active"] true false) = Ret (Some value)
        /\ errors_shown
             (trace (run_bash_command "/opt/vpn/VPN.sh"
                       (fun _ => Fails "Permission denied")
                       ["get_active"] true false)) = []).
Proof.
  apply (run_bash_command_reports_failure_once "/opt/vpn/VPN.sh"
           (fun _ => Fails "Permission denied") ["get_active"] true false).
  discriminate.
Defined.

(** ** The status poll and the disconnect handler *)

(** The call of [get_active] of the helper, case by case. *)
Ltac active_cases script helper H :=
  let Hrc := fresh "Hrc" in
  unfold update_status, disconnect_vpn_gui, get_active_vpn_interface;
  destruct (helper [script; "get_active"]) as [?d ?rc ?out ?err| | |?msg] eqn:H;
  [ match goal with
    | rc : Z |- _ =>
        destruct (Z.eq_dec rc 0) as [->|Hrc];
        [ rewrite (run_zero_quiet _ _ _ _ _ _ _ H)
        | rewrite (run_nonzero _ _ _ _ _ _ _ _ _ H Hrc) ]
    end
  | rewrite (run_hangs _ _ _ _ _ H)
  | rewrite (run_not_found _ _ _ _ _ H)
  | rewrite (run_fails _ _ _ _ _ _ H) ].

Lemma connected_label_not_disconnected (name : string) :
  "Status: Disconnected" <> ("Status: Connected to " ++ name)%string.
Proof. cbn. discriminate. Qed.

Lemma update_status_poll (WIREGUARD_BASH_SCRIPT : string) (helper : Helper) :
  helper [WIREGUARD_BASH_SCRIPT; "get_active"] <> Hangs ->
  outcome (update_status WIREGUARD_BASH_SCRIPT helper) = Ret tt
  /\ timers_scheduled (trace (update_status WIREGUARD_BASH_SCRIPT helper))
     = [RootAfter 5000 cb_update_status]
  /\ threads_started (trace (update_status WIREGUARD_BASH_SCRIPT helper)) = [].
Proof.
  intros Hh. active_cases WIREGUARD_BASH_SCRIPT helper H; try congruence;
    cbn; try destruct (PyStr.strip out); cbn; auto.
Qed.

(** X3.  Whenever the call of [get_active] comes back, [update_status]
    returns, schedules itself again once (after 5000 ms) and starts no
    thread.  It sets the label and the button together: the disconnect
    button is enabled exactly when the label says "Connected to" a name
    that is not empty. *)
Theorem update_status_reschedules (WIREGUARD_BASH_SCRIPT : string)
    (helper : Helper) :
  helper [WIREGUARD_BASH_SCRIPT; "get_active"] <> Hangs ->
  let poll := update_status WIREGUARD_BASH_SCRIPT helper in
  outcome poll = Ret tt
  /\ timers_scheduled (trace poll) = [RootAfter 5000 cb_update_status]
  /\ threads_started (trace poll) = []
  /\ exists label button,
       status_shown (trace poll)
       = [StatusLabelConfig label; DisconnectButtonConfig button]
       /\ (button = normal
           <-> exists name, name <> EmptyString
                 /\ label = ("Status: Connected to " ++ name)%string).
Proof.
  intros Hh. cbv zeta.
  destruct (update_status_poll WIREGUARD_BASH_SCRIPT helper Hh) as [Ho [Ht Hth]].
  split; [exact Ho|]. split; [exact Ht|]. split; [exact Hth|].
  assert (Hdis : forall t,
             status_shown t = [StatusLabelConfig "Status: Disconnected";
                               DisconnectButtonConfig disabled] ->
             exists label button,
               status_shown t = [StatusLabelConfig label; DisconnectButtonConfig button]
               /\ (button = normal
                   <-> exists name, name <> EmptyString
                         /\ label = ("Status: Connected to " ++ name)%string)).
  { intros t Hs. exists "Status: Disconnected", disabled. split; [exact Hs|].
    split; [discriminate|].
    intros [name [_ Hl]]. now apply connected_label_not_disconnected in Hl. }
  clear Ho Ht Hth.
  active_cases WIREGUARD_BASH_SCRIPT helper H; try congruence;
    try (apply Hdis; reflexivity).
  destruct (PyStr.strip out) as [|c name] eqn:Hs.
  - apply Hdis. reflexivity.
  - exists ("Status: Connected to " ++ String c name)%string, normal.
    split; [reflexivity|]. split; [|reflexivity].
    intros _. exists (String c name). split; [discriminate | reflexivity].
Qed.

Lemma update_status_reschedules_witness :
  timers_scheduled
    (trace (update_status "/opt/vpn/VPN.sh" (fun _ => Exits 1 3 "" "no such device")))
  = [RootAfter 5000 cb_update_status].
Proof.
  apply (update_status_reschedules "/opt/vpn/VPN.sh"
           (fun _ => Exits 1 3 "" "no such device")).
  discriminate.
Defined.

(** X4.  When the query of the active interface succeeds,
    [disconnect_vpn_gui] asks for confirmation exactly when the
    stripped output is not empty, and starts the disconnect, of exactly
    that name, only when the user confirms.  With an empty output it
    shows "No active WireGuard VPN detected." and asks nothing.  The
    only child process the handler itself starts is the query. *)
Theorem disconnect_vpn_gui_target (WIREGUARD_BASH_SCRIPT : string)
    (helper : Helper) (answer : bool) (elapsed : nat) (stdout stderr : string) :
  helper [WIREGUARD_BASH_SCRIPT; "get_active"] = Exits elapsed 0 stdout stderr ->
  let call := disconnect_vpn_gui WIREGUARD_BASH_SCRIPT helper answer in
  let active := PyStr.strip stdout in
  threads_started (trace call)
  = (if answer && PyStr.truthy active then [["disconnect"; active]] else [])
  /\ questions_asked (trace call)
     = (if PyStr.truthy active
        then [AskYesNo "Disconnect VPN"
                ("Are you sure you want to disconnect from " ++ active ++ "?")%string
                answer]
        else [])
  /\ infos_shown (trace call)
     = (if PyStr.truthy active then []
        else [ShowInfo "Disconnect VPN" "No active WireGuard VPN detected."])
  /\ processes_started (trace call) = [[WIREGUARD_BASH_SCRIPT; "get_active"]].
Proof.
  intros H. cbv zeta. unfold disconnect_vpn_gui, get_active_vpn_interface.
  rewrite (run_zero_quiet _ _ _ _ _ _ _ H).
  destruct (PyStr.strip stdout) as [|c name]; destruct answer;
    repeat split; reflexivity.
Qed.

Lemma disconnect_vpn_gui_target_witness :
  threads_started
    (trace (disconnect_vpn_gui "/opt/vpn/VPN.sh"
              (fun _ => Exits 1 0 (" home" ++ PyStr.nl) "") true))
  = [["disconnect"; "home"]].
Proof.
  apply (disconnect_vpn_gui_target "/opt/vpn/VPN.sh"
           (fun _ => Exits 1 0 (" home" ++ PyStr.nl) "") true 1
           (" home" ++ PyStr.nl)%string "").
  reflexivity.
Defined.

(** X5.  When the query of the active interface fails,
    [disconnect_vpn_gui] reports it twice: the error dialog of
    [run_bash_command] is followed by the information "No active
    WireGuard VPN detected.".  Nothing is asked and nothing is
    started. *)
Theorem disconnect_vpn_gui_failed_query (WIREGUARD_BASH_SCRIPT : string)
    (helper : Helper) (answer : bool) :
  failed (helper [WIREGUARD_BASH_SCRIPT; "get_active"]) = true ->
  let call := disconnect_vpn_gui WIREGUARD_BASH_SCRIPT helper answer in
  exists title message rest,
    trace call
    = SubprocessRun [WIREGUARD_BASH_SCRIPT; "get_active"] false
      :: rest
         ++ [ShowError title message;
             ShowInfo "Disconnect VPN" "No active WireGuard VPN detected."]
    /\ errors_shown rest = [] /\ infos_shown rest = []
    /\ questions_asked (trace call) = []
    /\ threads_started (trace call) = []
    /\ outcome call = Ret tt.
Proof.
  intros Hf. cbv zeta. revert Hf.
  active_cases WIREGUARD_BASH_SCRIPT helper H; cbn [failed]; try discriminate.
  - intros _. do 2 eexists. exists [ChildExited d]. now cbn.
  - intros _. do 2 eexists. exists []. now cbn.
  - intros _. do 2 eexists. exists []. now cbn.
Qed.

Lemma disconnect_vpn_gui_failed_query_witness :
  exists title message rest,
    trace (disconnect_vpn_gui "/opt/vpn/VPN.sh" (fun _ => NotFound) true)
    = SubprocessRun ["/opt/vpn/VPN.sh"; "get_active"] false
      :: rest
         ++ [ShowError title message;
             ShowInfo "Disconnect VPN" "No active WireGuard VPN detected."]
    /\ errors_shown rest = [] /\ infos_shown rest = []
    /\ questions_asked
         (trace (disconnect_vpn_gui "/opt/vpn/VPN.sh" (fun _ => NotFound) true)) = []
    /\ threads_started
         (trace (disconnect_vpn_gui "/opt/vpn/VPN.sh" (fun _ => NotFound) true)) = []
    /\ outcome (disconnect_vpn_gui "/opt/vpn/VPN.sh" (fun _ => NotFound) true) = Ret tt.
Proof.
  apply (disconnect_vpn_gui_failed_query "/opt/vpn/VPN.sh" (fun _ => NotFound) true).
  reflexivity.
Defined.

(** ** The connection dialog, continued *)

(** The call of [list_interfaces] of the helper, case by case. *)
Ltac listing_cases script helper H :=
  let Hrc := fresh "Hrc" in
  unfold get_vpn_interface_names;
  destruct (helper [script; "list_interfaces"]) as [?d ?rc ?out ?err| | |?msg] eqn:H;
  [ match goal with
    | rc : Z |- _ =>
        destruct (Z.eq_dec rc 0) as [->|Hrc];
        [ rewrite (run_zero_quiet _ _ _ _ _ _ _ H)
        | rewrite (run_nonzero _ _ _ _ _ _ _ _ _ H Hrc) ]
    end
  | rewrite (run_hangs _ _ _ _ _ H)
  | rewrite (run_not_found _ _ _ _ _ H)
  | rewrite (run_fails _ _ _ _ _ _ H) ].

(** The dialogs, windows and timers of [get_vpn_interface_names]: an
    error dialog when the call fails, and nothing else. *)
Lemma get_vpn_interface_names_dialogs (WIREGUARD_BASH_SCRIPT : string)
    (helper : Helper) :
  let names := get_vpn_interface_names WIREGUARD_BASH_SCRIPT helper in
  infos_shown (trace names) = []
  /\ warnings_shown (trace names) = []
  /\ windows_opened (trace names) = []
  /\ timers_scheduled (trace names) = []
  /\ length (errors_shown (trace names))
     = (if failed (helper [WIREGUARD_BASH_SCRIPT; "list_interfaces"]) then 1 else 0).
Proof.
  cbv zeta. listing_cases WIREGUARD_BASH_SCRIPT helper H; cbn [failed];
    try (apply Z.eqb_neq in Hrc; rewrite Hrc);
    cbn; try destruct (PyStr.strip out); cbn; auto.
Qed.

Lemma get_vpn_interface_names_StronglySorted (WIREGUARD_BASH_SCRIPT : string)
    (helper : Helper) (interfaces : list string) :
  outcome (get_vpn_interface_names WIREGUARD_BASH_SCRIPT helper) = Ret interfaces ->
  StronglySorted (fun a b => String.leb a b = true) interfaces.
Proof.
  destruct (helper [WIREGUARD_BASH_SCRIPT; "list_interfaces"])
    as [d rc out err| | |msg] eqn:H.
  - destruct (Z.eq_dec rc 0) as [->|Hrc].
    + rewrite (get_vpn_interface_names_value _ _ _ _ _ H). cbn.
      intros [= <-]. apply sorted_StronglySorted.
    + unfold get_vpn_interface_names.
      rewrite (run_nonzero _ _ _ _ _ _ _ _ _ H Hrc). cbn.
      intros [= <-]. constructor.
  - unfold get_vpn_interface_names. rewrite (run_hangs _ _ _ _ _ H). discriminate.
  - unfold get_vpn_interface_names. rewrite (run_not_found _ _ _ _ _ H).
    cbn. intros [= <-]. constructor.
  - unfold get_vpn_interface_names. rewrite (run_fails _ _ _ _ _ _ H).
    cbn. intros [= <-]. constructor.
Qed.

Lemma filter_trace_bind {A B : Type} (keep : Event -> bool) (m : M A)
    (f : A -> M B) (a : A) :
  outcome m = Ret a ->
  filter keep (trace (bind m f)) = filter keep (trace m) ++ filter keep (trace (f a)).
Proof. intros H. now rewrite trace_bind, H, filter_app. Qed.

(** The window on a registry of names that are not empty: [do_connect]
    never warns, and a refresh of the status is scheduled for every
    thread that is started. *)
Lemma wait_window_quiet (interfaces : list string) (actions : list DialogAction) :
  Forall (fun name => name <> EmptyString) interfaces ->
  forall selected : string,
    In selected interfaces ->
    let window := wait_window interfaces selected actions in
    warnings_shown (trace window) = []
    /\ infos_shown (trace window) = []
    /\ errors_shown (trace window) = []
    /\ timers_scheduled (trace window)
       = map (fun _ => RootAfter 1000 cb_update_status)
             (threads_started (trace window)).
Proof.
  intros Hne. cbv zeta.
  induction actions as [|[position|] actions IH]; intros selected Hsel.
  - cbn. auto.
  - cbn [wait_window]. apply IH. now apply nth_In_or_default.
  - cbn [wait_window]. rewrite do_connect_value.
    rewrite Forall_forall in Hne. pose proof (Hne _ Hsel) as Hs.
    apply truthy_true in Hs. rewrite Hs. cbn. auto.
Qed.

(** X6.  When the registry is empty, or its listing fails,
    [connect_vpn_gui] opens no selection window and starts nothing: it
    shows "No WireGuard VPN configurations found." and returns,
    whatever the user would have done in the window.  After a failed
    listing this message comes on top of the error dialog of the
    call. *)
Theorem connect_vpn_gui_nothing_to_select (WIREGUARD_BASH_SCRIPT : string)
    (helper : Helper) (actions : list DialogAction) :
  outcome (get_vpn_interface_names WIREGUARD_BASH_SCRIPT helper) = Ret [] ->
  let call := connect_vpn_gui WIREGUARD_BASH_SCRIPT helper actions in
  windows_opened (trace call) = []
  /\ threads_started (trace call) = []
  /\ timers_scheduled (trace call) = []
  /\ infos_shown (trace call)
     = [ShowInfo "Connect VPN"
          ("No WireGuard VPN configurations found." ++ PyStr.nl
           ++ "Please import a configuration first.")%string]
  /\ length (errors_shown (trace call))
     = (if failed (helper [WIREGUARD_BASH_SCRIPT; "list_interfaces"]) then 1 else 0)
  /\ outcome call = Ret tt.
Proof.
  intros Hreg. cbv zeta.
  destruct (get_vpn_interface_names_dialogs WIREGUARD_BASH_SCRIPT helper)
    as [Hi [_ [Hw [Ht He]]]].
  destruct (get_vpn_interface_names_trace WIREGUARD_BASH_SCRIPT helper)
    as [Hth _].
  unfold connect_vpn_gui, windows_opened, timers_scheduled, infos_shown,
    errors_shown in *.
  rewrite !(filter_trace_bind _ _ _ _ Hreg), outcome_bind, Hreg.
  rewrite trace_bind, threads_started_app, Hreg, Hth, Hi, Hw, Ht.
  cbn. rewrite app_nil_r. repeat split; try reflexivity. exact He.
Qed.

Lemma connect_vpn_gui_nothing_to_select_witness :
  infos_shown
    (trace (connect_vpn_gui "/opt/vpn/VPN.sh" (fun _ => Exits 1 0 PyStr.nl "")
              [ClickConnect]))
  = [ShowInfo "Connect VPN"
       ("No WireGuard VPN configurations found." ++ PyStr.nl
        ++ "Please import a configuration first.")%string].
Proof.
  apply (connect_vpn_gui_nothing_to_select "/opt/vpn/VPN.sh"
           (fun _ => Exits 1 0 PyStr.nl "") [ClickConnect]).
  reflexivity.
Defined.

Lemma connect_vpn_gui_click (WIREGUARD_BASH_SCRIPT : string) (helper : Helper)
    (interfaces : list string) (first : string) (rest : list string)
    (selected : string) (actions : list DialogAction) :
  outcome (get_vpn_interface_names WIREGUARD_BASH_SCRIPT helper) = Ret (first :: rest) ->
  threads_started (trace (wait_window (first :: rest) first actions))
  = [["connect"; selected]] ->
  threads_started (trace (connect_vpn_gui WIREGUARD_BASH_SCRIPT helper actions))
  = [["connect"; selected]].
Proof.
  intros Hreg Hw.
  destruct (get_vpn_interface_names_trace WIREGUARD_BASH_SCRIPT helper) as [Hth _].
  unfold connect_vpn_gui.
  rewrite trace_bind, threads_started_app, Hth, Hreg.
  rewrite trace_bind. cbn [emit outcome trace fst snd app threads_started].
  exact Hw.
Qed.

(** X7.  In the selection window, [Connect] connects to the entry the
    user picked, and with no pick to the first entry of the list, which
    is the least name of the registry in the order of strings. *)
Theorem connect_vpn_gui_selects (WIREGUARD_BASH_SCRIPT : string)
    (helper : Helper) (interfaces : list string) (position : nat) :
  outcome (get_vpn_interface_names WIREGUARD_BASH_SCRIPT helper) = Ret interfaces ->
  position < length interfaces ->
  threads_started
    (trace (connect_vpn_gui WIREGUARD_BASH_SCRIPT helper
              [Select position; ClickConnect]))
  = [["connect"; nth position interfaces EmptyString]]
  /\ threads_started
       (trace (connect_vpn_gui WIREGUARD_BASH_SCRIPT helper [ClickConnect]))
     = [["connect"; nth 0 interfaces EmptyString]]
  /\ Forall (fun name => String.leb (nth 0 interfaces EmptyString) name = true)
            interfaces.
Proof.
  intros Hreg Hpos.
  pose proof (get_vpn_interface_names_StronglySorted _ _ _ Hreg) as Hsorted.
  assert (Hne : forall name, In name interfaces -> PyStr.truthy name = true).
  { intros name Hin. apply truthy_true.
    exact (get_vpn_interface_names_not_empty _ _ _ _ Hreg Hin). }
  destruct interfaces as [|first rest]; [cbn in Hpos; lia|].
  split; [|split].
  - apply (connect_vpn_gui_click _ _ (first :: rest) _ _ _ _ Hreg).
    cbn [wait_window]. rewrite do_connect_value.
    rewrite (nth_indep _ first EmptyString Hpos).
    rewrite (Hne _ (nth_In _ _ Hpos)). reflexivity.
  - apply (connect_vpn_gui_click _ _ (first :: rest) _ _ _ _ Hreg).
    cbn [wait_window nth]. rewrite do_connect_value.
    rewrite (Hne first (or_introl eq_refl)). reflexivity.
  - cbn [nth]. apply StronglySorted_inv in Hsorted. destruct Hsorted as [_ Hall].
    constructor; [apply string_leb_refl | exact Hall].
Qed.

Lemma connect_vpn_gui_selects_witness :
  threads_started
    (trace (connect_vpn_gui "/opt/vpn/VPN.sh"
              (fun _ => Exits 1 0 ("work" ++ PyStr.nl ++ "home") "")
              [Select 1; ClickConnect]))
  = [["connect"; "work"]].
Proof.
  apply (connect_vpn_gui_selects "/opt/vpn/VPN.sh"
           (fun _ => Exits 1 0 ("work" ++ PyStr.nl ++ "home") "")
           ["home"; "work"] 1); [reflexivity | cbn; lia].
Defined.

(** X8.  The warning "Please select a VPN interface." of [do_connect]
    is never shown by the dialog: the combobox holds a name of the
    registry, and the names of the registry are not empty.  The dialog
    opens at most one window. *)
Theorem connect_vpn_gui_never_warns (WIREGUARD_BASH_SCRIPT : string)
    (helper : Helper) (actions : list DialogAction) :
  warnings_shown (trace (connect_vpn_gui WIREGUARD_BASH_SCRIPT helper actions)) = []
  /\ length (windows_opened
               (trace (connect_vpn_gui WIREGUARD_BASH_SCRIPT helper actions))) <= 1.
Proof.
  destruct (get_vpn_interface_names_dialogs WIREGUARD_BASH_SCRIPT helper)
    as [_ [Hwarn [Hwin _]]].
  destruct (get_vpn_interface_names_trace WIREGUARD_BASH_SCRIPT helper)
    as [_ [_ Hnr]].
  unfold connect_vpn_gui, warnings_shown, windows_opened in *.
  rewrite trace_bind, !filter_app, Hwarn, Hwin. cbn [app].
  destruct (outcome (get_vpn_interface_names WIREGUARD_BASH_SCRIPT helper))
    as [interfaces|e|] eqn:Hreg; [|now destruct (Hnr e)|cbn; auto].
  destruct interfaces as [|first rest]; [cbn; auto|].
  rewrite trace_bind. cbn [emit outcome trace fst snd app filter
                             is_warning_dialog is_toplevel].
  assert (Hne : Forall (fun name => name <> EmptyString) (first :: rest)).
  { apply Forall_forall. intros name Hin.
    exact (get_vpn_interface_names_not_empty _ _ _ _ Hreg Hin). }
  destruct (wait_window_quiet (first :: rest) actions Hne first (or_introl eq_refl))
    as [Hw _].
  split; [exact Hw|].
  assert (Hnone : forall acts selected,
             filter is_toplevel (trace (wait_window (first :: rest) selected acts)) = []).
  { induction acts as [|[p|] acts IH]; intros selected; cbn [wait_window].
    - reflexivity.
    - apply IH.
    - rewrite do_connect_value. destruct (PyStr.truthy selected); [reflexivity|].
      rewrite trace_bind. cbn [outcome trace fst snd app filter is_toplevel].
      apply IH. }
  rewrite Hnone. cbn. lia.
Qed.

(** ** The names of the registry *)

Lemma split_fields_no_separator (sep : ascii) (s field : string) :
  In field (PyStr.split sep s) -> ~ In sep (list_ascii_of_string field).
Proof.
  revert field. induction s as [|c s IH]; intros field.
  - cbn. intros [<-|[]]. now cbn.
  - cbn [PyStr.split]. destruct (Ascii.eqb_spec c sep) as [->|Hc].
    + intros [<-|Hin]; [now cbn | now apply IH].
    + pose proof (split_not_nil sep s) as Hne.
      destruct (PyStr.split sep s) as [|first fields]; [congruence|].
      intros [<-|Hin].
      * cbn. intros [Heq|Hin]; [congruence|].
        now apply (IH first (or_introl eq_refl)).
      * apply IH. now right.
Qed.

Lemma lstrip_chars (c : ascii) (s : string) :
  In c (list_ascii_of_string (PyStr.lstrip s)) -> In c (list_ascii_of_string s).
Proof.
  induction s as [|d s IH]; cbn; [auto|].
  destruct (PyStr.isspace d); cbn; auto.
Qed.

Lemma rstrip_chars (c : ascii) (s : string) :
  In c (list_ascii_of_string (PyStr.rstrip s)) -> In c (list_ascii_of_string s).
Proof.
  induction s as [|d s IH]; cbn [PyStr.rstrip]; [auto|].
  destruct (PyStr.rstrip s) as [|e r].
  - destruct (PyStr.isspace d); cbn; [tauto|]. intros [H|[]]. now left.
  - cbn [list_ascii_of_string]. intros [H|H]; [now left|].
    right. now apply IH.
Qed.

Lemma strip_chars (c : ascii) (s : string) :
  In c (list_ascii_of_string (PyStr.strip s)) -> In c (list_ascii_of_string s).
Proof. intros H. now apply lstrip_chars, rstrip_chars. Qed.

(** X9.  Every name [get_vpn_interface_names] returns is one line of
    the listing without the white space around it: it is not empty, it
    holds no line feed, and stripping it again changes nothing. *)
Theorem get_vpn_interface_names_single_lines (WIREGUARD_BASH_SCRIPT : string)
    (helper : Helper) (interfaces : list string) (name : string) :
  outcome (get_vpn_interface_names WIREGUARD_BASH_SCRIPT helper) = Ret interfaces ->
  In name interfaces ->
  name <> EmptyString
  /\ ~ In PyStr.LF (list_ascii_of_string name)
  /\ PyStr.strip name = name.
Proof.
  intros Hreg Hin.
  split; [exact (get_vpn_interface_names_not_empty _ _ _ _ Hreg Hin)|].
  revert Hreg Hin.
  destruct (helper [WIREGUARD_BASH_SCRIPT; "list_interfaces"])
    as [d rc out err| | |msg] eqn:H.
  - destruct (Z.eq_dec rc 0) as [->|Hrc].
    + rewrite (get_vpn_interface_names_value _ _ _ _ _ H). cbn.
      intros [= <-] Hin.
      apply (Permutation_in _ (Permutation_sym (sorted_Permutation _))) in Hin.
      apply filter_In in Hin. destruct Hin as [Hin _].
      apply in_map_iff in Hin. destruct Hin as [line [<- Hline]].
      split; [|apply strip_Trimmed].
      intros Hc. apply strip_chars in Hc.
      exact (split_fields_no_separator _ _ _ Hline Hc).
    + unfold get_vpn_interface_names.
      rewrite (run_nonzero _ _ _ _ _ _ _ _ _ H Hrc). cbn. now intros [= <-].
  - unfold get_vpn_interface_names. rewrite (run_hangs _ _ _ _ _ H). discriminate.
  - unfold get_vpn_interface_names. rewrite (run_not_found _ _ _ _ _ H).
    cbn. now intros [= <-].
  - unfold get_vpn_interface_names. rewrite (run_fails _ _ _ _ _ _ H).
    cbn. now intros [= <-].
Qed.

Lemma get_vpn_interface_names_single_lines_witness :
  "home" <> EmptyString
  /\ ~ In PyStr.LF (list_ascii_of_string "home")
  /\ PyStr.strip "home" = "home".
Proof.
  apply (get_vpn_interface_names_single_lines "/opt/vpn/VPN.sh"
           (fun _ => Exits 1 0 ("  work " ++ PyStr.nl ++ "home ") "")
           ["home"; "work"] "home"); [reflexivity | now left].
Defined.

Lemma filter_Permutation {A : Type} (keep : A -> bool) (l l' : list A) :
  Permutation l l' -> Permutation (filter keep l) (filter keep l').
Proof.
  induction 1 as [|x l l' _ IH|x y l|l l' l'' _ IH1 _ IH2]; cbn.
  - constructor.
  - destruct (keep x); [now constructor | exact IH].
  - destruct (keep x), (keep y); try reflexivity. apply perm_swap.
  - now transitivity (filter keep l').
Qed.

(** Two sorted lists with the same elements are the same list. *)
Lemma StronglySorted_Permutation_eq (l l' : list string) :
  StronglySorted (fun a b => String.leb a b = true) l ->
  StronglySorted (fun a b => String.leb a b = true) l' ->
  Permutation l l' -> l = l'.
Proof.
  intros Hl. revert l'.
  induction Hl as [|x l Hl IH Hx]; intros l' Hl' Hp.
  - symmetry. now apply Permutation_nil.
  - destruct Hl' as [|y l' Hl' Hy].
    + apply Permutation_sym, Permutation_nil in Hp. discriminate.
    + assert (Hxy : x = y).
      { rewrite Forall_forall in Hx, Hy.
        pose proof (Permutation_in x Hp (or_introl eq_refl)) as [Heq|Hin1];
          [now symmetry|].
        pose proof (Permutation_in y (Permutation_sym Hp) (or_introl eq_refl))
          as [Heq|Hin2]; [exact Heq|].
        apply String.leb_antisym; auto. }
      subst y. f_equal. apply IH; [exact Hl'|].
      now apply Permutation_cons_inv with x.
Qed.

Lemma sorted_Permutation_eq (l l' : list string) :
  Permutation l l' -> PyStr.sorted l = PyStr.sorted l'.
Proof.
  intros Hp. apply StronglySorted_Permutation_eq;
    try apply sorted_StronglySorted.
  rewrite <- (sorted_Permutation l), <- (sorted_Permutation l'). exact Hp.
Qed.

(** X10.  The list [get_vpn_interface_names] returns does not depend on
    the order in which the helper prints the names: two listings with
    the same lines in any order give the same list. *)
Theorem get_vpn_interface_names_order_independent
    (WIREGUARD_BASH_SCRIPT : string) (helper helper' : Helper)
    (elapsed elapsed' : nat) (stdout stdout' stderr stderr' : string) :
  helper [WIREGUARD_BASH_SCRIPT; "list_interfaces"]
  = Exits elapsed 0 stdout stderr ->
  helper' [WIREGUARD_BASH_SCRIPT; "list_interfaces"]
  = Exits elapsed' 0 stdout' stderr' ->
  Permutation (PyStr.split PyStr.LF (PyStr.strip stdout))
              (PyStr.split PyStr.LF (PyStr.strip stdout')) ->
  outcome (get_vpn_interface_names WIREGUARD_BASH_SCRIPT helper)
  = outcome (get_vpn_interface_names WIREGUARD_BASH_SCRIPT helper').
Proof.
  intros H H' Hp.
  rewrite (get_vpn_interface_names_value _ _ _ _ _ H),
    (get_vpn_interface_names_value _ _ _ _ _ H').
  cbn. f_equal. apply sorted_Permutation_eq, filter_Permutation.
  now apply Permutation_map.
Qed.

Lemma get_vpn_interface_names_order_independent_witness :
  outcome (get_vpn_interface_names "/opt/vpn/VPN.sh"
             (fun _ => Exits 1 0 ("work" ++ PyStr.nl ++ "home") ""))
  = outcome (get_vpn_interface_names "/opt/vpn/VPN.sh"
               (fun _ => Exits 2 0 ("home" ++ PyStr.nl ++ "work") "")).
Proof.
  apply (get_vpn_interface_names_order_independent "/opt/vpn/VPN.sh"
           (fun _ => Exits 1 0 ("work" ++ PyStr.nl ++ "home") "")
           (fun _ => Exits 2 0 ("home" ++ PyStr.nl ++ "work") "")
           1 2 ("work" ++ PyStr.nl ++ "home")%string
           ("home" ++ PyStr.nl ++ "work")%string "" "");
    [reflexivity | reflexivity | apply perm_swap].
Defined.

(** ** The handlers and the main loop, continued *)

(** The refresh a handler schedules. *)
Lemma handle_timers (WIREGUARD_BASH_SCRIPT : string) (helper : Helper)
    (r : Request) :
  timers_scheduled (trace (handle WIREGUARD_BASH_SCRIPT helper r))
  = map (fun _ => RootAfter 1000 cb_update_status)
        (threads_started (trace (handle WIREGUARD_BASH_SCRIPT helper r))).
Proof.
  destruct r as [actions|answer|source_file config_name]; cbn [handle].
  - destruct (get_vpn_interface_names_dialogs WIREGUARD_BASH_SCRIPT helper)
      as [_ [_ [_ [Ht _]]]].
    destruct (get_vpn_interface_names_trace WIREGUARD_BASH_SCRIPT helper)
      as [Hth [_ Hnr]].
    unfold connect_vpn_gui, timers_scheduled in *.
    rewrite trace_bind, filter_app, threads_started_app, Ht, Hth. cbn [app].
    destruct (outcome (get_vpn_interface_names WIREGUARD_BASH_SCRIPT helper))
      as [interfaces|e|] eqn:Hreg; [|now destruct (Hnr e)|reflexivity].
    destruct interfaces as [|first rest]; [reflexivity|].
    rewrite trace_bind. cbn [emit outcome trace fst snd app filter is_timer
                               threads_started].
    assert (Hne : Forall (fun name => name <> EmptyString) (first :: rest)).
    { apply Forall_forall. intros name Hin.
      exact (get_vpn_interface_names_not_empty _ _ _ _ Hreg Hin). }
    destruct (wait_window_quiet (first :: rest) actions Hne first (or_introl eq_refl))
      as [_ [_ [_ Hw]]].
    exact Hw.
  - active_cases WIREGUARD_BASH_SCRIPT helper H; cbn; try reflexivity.
    destruct (PyStr.strip out); cbn; [reflexivity|].
    destruct answer; reflexivity.
  - unfold import_config_gui.
    destruct (PyStr.truthy source_file); cbn; [|reflexivity].
    destruct config_name as [name|]; cbn; [|reflexivity].
    destruct (PyStr.truthy name); cbn; [|reflexivity].
    destruct (PyStr.contains "/" name || PyStr.contains ".." name); reflexivity.
Qed.

Lemma handle_outcome (WIREGUARD_BASH_SCRIPT : string) (helper : Helper)
    (r : Request) :
  outcome (handle WIREGUARD_BASH_SCRIPT helper r)
  = match r with
    | RequestConnect _ =>
        if hangs (helper [WIREGUARD_BASH_SCRIPT; "list_interfaces"])
        then Diverge else Ret tt
    | RequestDisconnect _ =>
        if hangs (helper [WIREGUARD_BASH_SCRIPT; "get_active"])
        then Diverge else Ret tt
    | RequestImport _ _ => Ret tt
    end.
Proof.
  destruct r as [actions|answer|source_file config_name]; cbn [handle].
  - destruct (outcome (get_vpn_interface_names WIREGUARD_BASH_SCRIPT helper))
      as [interfaces|e|] eqn:Hreg.
    + pose proof (connect_vpn_gui_threads_aux WIREGUARD_BASH_SCRIPT helper
                    interfaces actions Hreg) as Haux.
      cbv zeta in Haux. destruct Haux as [_ [_ Ho]]. rewrite Ho.
      revert Hreg. listing_cases WIREGUARD_BASH_SCRIPT helper H;
        cbn; try reflexivity; discriminate.
    + destruct (get_vpn_interface_names_trace WIREGUARD_BASH_SCRIPT helper)
        as [_ [_ Hnr]]. now destruct (Hnr e).
    + unfold connect_vpn_gui. rewrite outcome_bind, Hreg.
      revert Hreg. listing_cases WIREGUARD_BASH_SCRIPT helper H;
        cbn; try reflexivity; try discriminate.
      destruct (PyStr.strip out); discriminate.
  - active_cases WIREGUARD_BASH_SCRIPT helper H; cbn; try reflexivity.
    destruct (PyStr.strip out); cbn; [reflexivity|].
    destruct answer; reflexivity.
  - unfold import_config_gui.
    destruct (PyStr.truthy source_file); cbn; [|reflexivity].
    destruct config_name as [name|]; cbn; [|reflexivity].
    destruct (PyStr.truthy name); cbn; [|reflexivity].
    destruct (PyStr.contains "/" name || PyStr.contains ".." name); reflexivity.
Qed.

(** X11.  A handler schedules the refresh of the status (after
    1000 ms) exactly when it starts a thread: one refresh for the
    thread of a connect, a disconnect or an import, and none when the
    request is turned down or cancelled.  This holds for the three
    handlers, for every helper and every input of the user. *)
Theorem handle_refresh_with_thread (WIREGUARD_BASH_SCRIPT : string)
    (helper : Helper) (r : Request) :
  let call := handle WIREGUARD_BASH_SCRIPT helper r in
  timers_scheduled (trace call)
  = map (fun _ => RootAfter 1000 cb_update_status) (threads_started (trace call))
  /\ (threads_started (trace call) = [] <-> timers_scheduled (trace call) = []).
Proof.
  cbv zeta. rewrite handle_timers. split; [reflexivity|].
  destruct (threads_started (trace (handle WIREGUARD_BASH_SCRIPT helper r)));
    cbn; split; intros; congruence.
Qed.

(** X12.  No exception leaves a handler, and a handler keeps the main
    loop waiting only in its own query of the helper: the connect
    handler when [list_interfaces] never exits, the disconnect handler
    when [get_active] never exits.  The import handler always returns:
    it starts no child process itself. *)
Theorem handle_returns_unless_query_hangs (WIREGUARD_BASH_SCRIPT : string)
    (helper : Helper) (r : Request) :
  outcome (handle WIREGUARD_BASH_SCRIPT helper r)
  = match r with
    | RequestConnect _ =>
        if hangs (helper [WIREGUARD_BASH_SCRIPT; "list_interfaces"])
        then Diverge else Ret tt
    | RequestDisconnect _ =>
        if hangs (helper [WIREGUARD_BASH_SCRIPT; "get_active"])
        then Diverge else Ret tt
    | RequestImport source_file config_name => Ret tt
    end
  /\ match r with
     | RequestImport source_file config_name =>
         processes_started
           (trace (handle WIREGUARD_BASH_SCRIPT helper r)) = []
     | _ =>
         length (processes_started
                   (trace (handle WIREGUARD_BASH_SCRIPT helper r))) = 1
     end.
Proof.
  split; [apply handle_outcome|].
  destruct r as [actions|answer|source_file config_name]; cbn [handle].
  - destruct (get_vpn_interface_names_trace WIREGUARD_BASH_SCRIPT helper)
      as [_ [Hpr Hnr]].
    destruct (outcome (get_vpn_interface_names WIREGUARD_BASH_SCRIPT helper))
      as [interfaces|e|] eqn:Hreg.
    + pose proof (connect_vpn_gui_threads_aux WIREGUARD_BASH_SCRIPT helper
                    interfaces actions Hreg) as Haux.
      cbv zeta in Haux. destruct Haux as [_ [Hp _]]. now rewrite Hp.
    + now destruct (Hnr e).
    + unfold connect_vpn_gui.
      rewrite trace_bind, processes_started_app, Hpr, Hreg. reflexivity.
  - unfold disconnect_vpn_gui, get_active_vpn_interface.
    rewrite trace_bind, processes_started_app.
    destruct (run_starts_child WIREGUARD_BASH_SCRIPT helper ["get_active"] true false)
      as [rest [Ht Hrest]].
    rewrite Ht. cbn [processes_started]. rewrite Hrest.
    destruct (outcome (run_bash_command _ _ _ _ _)) as [[name|]|e|];
      try reflexivity.
    destruct (PyStr.truthy name); [|reflexivity].
    destruct answer; reflexivity.
  - unfold import_config_gui.
    destruct (PyStr.truthy source_file); cbn; [|reflexivity].
    destruct config_name as [name|]; cbn; [|reflexivity].
    destruct (PyStr.truthy name); cbn; [|reflexivity].
    destruct (PyStr.contains "/" name || PyStr.contains ".." name); reflexivity.
Qed.

(** X13.  The disconnect button and the disconnect handler agree: for
    one and the same answer of the helper, [update_status] enables the
    button exactly when a confirmed [disconnect_vpn_gui] starts a
    disconnect, and the name on the label is the name that is
    disconnected. *)
Theorem update_status_agrees_with_disconnect (WIREGUARD_BASH_SCRIPT : string)
    (helper : Helper) :
  let poll := update_status WIREGUARD_BASH_SCRIPT helper in
  let call := disconnect_vpn_gui WIREGUARD_BASH_SCRIPT helper true in
  (In (DisconnectButtonConfig normal) (trace poll)
   <-> threads_started (trace call) <> [])
  /\ forall name,
       threads_started (trace call) = [["disconnect"; name]] ->
       In (StatusLabelConfig ("Status: Connected to " ++ name)%string) (trace poll).
Proof.
  cbv zeta. active_cases WIREGUARD_BASH_SCRIPT helper H; cbn;
    try (split; [split; [intuition discriminate | congruence]
                | intros name; discriminate]).
  destruct (PyStr.strip out) as [|c active]; cbn.
  - split; [split; [intuition discriminate | congruence]
           | intros name; discriminate].
  - split; [split; [discriminate | auto 10]|].
    intros name [= <-]. auto 10.
Qed.

(** ** Timers of the status poll *)

Lemma create_main_window_poll (WIREGUARD_BASH_SCRIPT : string) (helper : Helper) :
  helper [WIREGUARD_BASH_SCRIPT; "get_active"] <> Hangs ->
  Window_start WIREGUARD_BASH_SCRIPT helper = mkWindow App_start 1.
Proof.
  intros Hh.
  destruct (update_status_poll WIREGUARD_BASH_SCRIPT helper Hh) as [Ho [Ht Hth]].
  unfold Window_start, create_main_window, callback, returns, timers_scheduled in *.
  rewrite !trace_bind, !outcome_bind. cbn [emit outcome trace fst snd app].
  cbn [filter is_timer threads_started stuck App_start in_flight].
  rewrite Ho, Ht, Hth. reflexivity.
Qed.

Lemma run_window_pending (WIREGUARD_BASH_SCRIPT : string) (os : list Occurrence) :
  forall w : Window,
    stuck (application w) = false ->
    Forall (fun o => callback_returns WIREGUARD_BASH_SCRIPT o = true) os ->
    stuck (application (run_window WIREGUARD_BASH_SCRIPT w os)) = false
    /\ (0 < pending w ->
        pending (run_window WIREGUARD_BASH_SCRIPT w os)
        = pending w + length (flat_map (threads_of WIREGUARD_BASH_SCRIPT) os)).
Proof.
  unfold run_window.
  induction os as [|o os IH]; intros w Hw Hret.
  - cbn. split; [exact Hw | lia].
  - inversion Hret as [|? ? Ho Hrest]; subst. cbn [fold_left flat_map].
    rewrite length_app.
    destruct o as [h r|h|position]; cbn [fire threads_of callback_returns] in *.
    + rewrite Hw.
      assert (Hs : stuck (occur WIREGUARD_BASH_SCRIPT (application w)
                            (ButtonPressed h r)) = false).
      { cbn [occur]. unfold callback. rewrite Hw, Ho. reflexivity. }
      destruct (IH (mkWindow (occur WIREGUARD_BASH_SCRIPT (application w)
                                (ButtonPressed h r))
                      (pending w
                       + length (timers_scheduled
                                   (trace (handle WIREGUARD_BASH_SCRIPT h r)))))
                  Hs Hrest) as [IHs IHp].
      split; [exact IHs|]. intros Hpos.
      rewrite IHp by (cbn [pending]; lia). cbn [pending].
      rewrite handle_timers, length_map. lia.
    + destruct (pending w) as [|others] eqn:Hp.
      * destruct (IH w Hw Hrest) as [IHs _]. split; [exact IHs | lia].
      * rewrite Hw.
        assert (Hh : h [WIREGUARD_BASH_SCRIPT; "get_active"] <> Hangs).
        { intros Hh. unfold returns, update_status, get_active_vpn_interface in Ho.
          rewrite (run_hangs _ _ _ _ _ Hh) in Ho. discriminate. }
        destruct (update_status_poll WIREGUARD_BASH_SCRIPT h Hh) as [_ [Ht _]].
        rewrite Ht. cbn [length].
        assert (Hs : stuck (occur WIREGUARD_BASH_SCRIPT (application w)
                              (TimerFired h)) = false).
        { cbn [occur]. unfold callback. rewrite Hw, Ho. reflexivity. }
        destruct (IH (mkWindow (occur WIREGUARD_BASH_SCRIPT (application w)
                                  (TimerFired h)) (others + 1)) Hs Hrest)
          as [IHs IHp].
        split; [exact IHs|]. intros _.
        rewrite IHp by (cbn [pending]; lia). cbn [pending length]. lia.
    + destruct (IH (mkWindow (occur WIREGUARD_BASH_SCRIPT (application w)
                                (ThreadFinished position)) (pending w))
                  Hw Hrest) as [IHs IHp].
      split; [exact IHs|]. intros Hpos.
      rewrite IHp by exact Hpos. cbn [pending length]. lia.
Qed.

(** X14.  The timers of the status poll pile up.  [create_main_window]
    leaves one timer pending; a poll that fires schedules the next one,
    and every operation a handler starts schedules one more.  So, as
    long as no callback hangs, the number of pending timers after any
    run of the main loop is one plus the number of operations started
    so far: it never goes down, whether the operations have finished or
    not. *)
Theorem status_timers_accumulate (WIREGUARD_BASH_SCRIPT : string)
    (helper : Helper) (os : list Occurrence) :
  helper [WIREGUARD_BASH_SCRIPT; "get_active"] <> Hangs ->
  Forall (fun o => callback_returns WIREGUARD_BASH_SCRIPT o = true) os ->
  let w := run_window WIREGUARD_BASH_SCRIPT
             (Window_start WIREGUARD_BASH_SCRIPT helper) os in
  pending w = 1 + length (flat_map (threads_of WIREGUARD_BASH_SCRIPT) os)
  /\ stuck (application w) = false.
Proof.
  intros Hh Hret. cbv zeta. rewrite (create_main_window_poll _ _ Hh).
  destruct (run_window_pending WIREGUARD_BASH_SCRIPT os (mkWindow App_start 1)
              eq_refl Hret) as [Hs Hp].
  split; [|exact Hs]. rewrite Hp by (cbn; lia). reflexivity.
Qed.

Lemma status_timers_accumulate_witness :
  pending
    (run_window "/opt/vpn/VPN.sh"
       (Window_start "/opt/vpn/VPN.sh" (fun _ => Exits 1 0 "home" ""))
       [ButtonPressed (fun _ => Exits 1 0 "home" "") (RequestDisconnect true);
        ThreadFinished 0;
        TimerFired (fun _ => Exits 1 0 "" "");
        ButtonPressed (fun _ => NotFound)
          (RequestImport "/tmp/wg0.conf" (Some "office"));
        TimerFired (fun _ => Exits 1 0 "" "")])
  = 3.
Proof.
  apply (status_timers_accumulate "/opt/vpn/VPN.sh" (fun _ => Exits 1 0 "home" "")
           [ButtonPressed (fun _ => Exits 1 0 "home" "") (RequestDisconnect true);
            ThreadFinished 0;
            TimerFired (fun _ => Exits 1 0 "" "");
            ButtonPressed (fun _ => NotFound)
              (RequestImport "/tmp/wg0.conf" (Some "office"));
            TimerFired (fun _ => Exits 1 0 "" "")]);
    [discriminate | repeat constructor].
Defined.

(** ** A helper that never answers *)

Lemma remove_nth_length {A : Type} (n : nat) (xs : list A) :
  length (remove_nth n xs) <= length xs.
Proof.
  revert n. induction xs as [|x xs IH]; intros [|n]; cbn; auto.
  specialize (IH n). lia.
Qed.

Lemma run_window_stuck (WIREGUARD_BASH_SCRIPT : string) (os : list Occurrence) :
  forall w : Window,
    stuck (application w) = true ->
    stuck (application (run_window WIREGUARD_BASH_SCRIPT w os)) = true
    /\ pending (run_window WIREGUARD_BASH_SCRIPT w os) = pending w
    /\ length (in_flight (application (run_window WIREGUARD_BASH_SCRIPT w os)))
       <= length (in_flight (application w)).
Proof.
  unfold run_window.
  induction os as [|o os IH]; intros w Hw; [cbn; auto|].
  cbn [fold_left].
  destruct o as [h r|h|position]; cbn [fire].
  - rewrite Hw. now apply IH.
  - destruct (pending w) eqn:Hp; [|rewrite Hw]; rewrite <- Hp; now apply IH.
  - destruct (IH (mkWindow (occur WIREGUARD_BASH_SCRIPT (application w)
                              (ThreadFinished position)) (pending w)) Hw)
      as [Hs [Hp Hl]].
    split; [exact Hs|]. split; [exact Hp|].
    etransitivity; [exact Hl|]. cbn. apply remove_nth_length.
Qed.

(** X15.  The status poll runs on the main thread.  When the helper
    does not answer [get_active], [update_status] never returns: it
    changes no widget and schedules no further poll, and from then on
    the main loop runs no callback, so that no button press starts an
    operation and no timer is ever scheduled again.  Only the threads
    already started can still come to their end. *)
Theorem update_status_hang_freezes_window (WIREGUARD_BASH_SCRIPT : string)
    (silent : Helper) (w : Window) (os : list Occurrence) :
  silent [WIREGUARD_BASH_SCRIPT; "get_active"] = Hangs ->
  stuck (application w) = false ->
  0 < pending w ->
  let frozen := fire WIREGUARD_BASH_SCRIPT w (TimerFired silent) in
  let later := run_window WIREGUARD_BASH_SCRIPT frozen os in
  update_status WIREGUARD_BASH_SCRIPT silent
  = ([SubprocessRun [WIREGUARD_BASH_SCRIPT; "get_active"] false], Diverge)
  /\ pending frozen = pending w - 1
  /\ stuck (application later) = true
  /\ pending later = pending frozen
  /\ length (in_flight (application later)) <= length (in_flight (application w)).
Proof.
  intros Hh Hw Hp. cbv zeta.
  assert (Hus : update_status WIREGUARD_BASH_SCRIPT silent
                = ([SubprocessRun [WIREGUARD_BASH_SCRIPT; "get_active"] false],
                   Diverge)).
  { unfold update_status, get_active_vpn_interface.
    now rewrite (run_hangs _ _ _ _ _ Hh). }
  split; [exact Hus|].
  destruct (pending w) as [|others] eqn:Hpw; [lia|].
  assert (Hf : fire WIREGUARD_BASH_SCRIPT w (TimerFired silent)
               = mkWindow (mkApp (in_flight (application w)) true) others).
  { cbn [fire]. rewrite Hpw, Hw. cbn [occur]. unfold callback.
    rewrite Hw, Hus. cbn. now rewrite app_nil_r, Nat.add_0_r. }
  rewrite Hf.
  destruct (run_window_stuck WIREGUARD_BASH_SCRIPT os
              (mkWindow (mkApp (in_flight (application w)) true) others) eq_refl)
    as [Hs [Hpd Hl]].
  cbn [pending application in_flight] in *.
  repeat split; try assumption. lia.
Qed.

Lemma update_status_hang_freezes_window_witness :
  stuck
    (application
       (run_window "/opt/vpn/VPN.sh"
          (fire "/opt/vpn/VPN.sh" (mkWindow App_start 1) (TimerFired (fun _ => Hangs)))
          [ButtonPressed (fun _ => Exits 1 0 "home" "") (RequestDisconnect true)]))
  = true.
Proof.
  apply (update_status_hang_freezes_window "/opt/vpn/VPN.sh" (fun _ => Hangs)
           (mkWindow App_start 1)
           [ButtonPressed (fun _ => Exits 1 0 "home" "") (RequestDisconnect true)]);
    [reflexivity | reflexivity | cbn; lia].
Defined.

(** X16.  The window starts with the label "Status: Checking..." and
    the disconnect button disabled.  When the first query of the active
    interface comes back, the label is replaced before the main loop
    starts: by "Status: Connected to" the stripped output of the
    helper, with the button enabled, when the query succeeds with an
    output that is not blank, and by "Status: Disconnected", with the
    button disabled, otherwise.  No thread is started at start-up, one
    poll is scheduled, and a failed query shows one error dialog. *)
Theorem create_main_window_first_status (WIREGUARD_BASH_SCRIPT : string)
    (helper : Helper) :
  helper [WIREGUARD_BASH_SCRIPT; "get_active"] <> Hangs ->
  let startup := create_main_window WIREGUARD_BASH_SCRIPT helper in
  outcome startup = Ret tt
  /\ threads_started (trace startup) = []
  /\ timers_scheduled (trace startup) = [RootAfter 5000 cb_update_status]
  /\ length (errors_shown (trace startup))
     = (if failed (helper [WIREGUARD_BASH_SCRIPT; "get_active"]) then 1 else 0)
  /\ status_shown (trace startup)
     = [StatusLabelConfig "Status: Checking...";
        DisconnectButtonConfig disabled]
       ++ match helper [WIREGUARD_BASH_SCRIPT; "get_active"] with
          | Exits _ rc out _ =>
              if (rc =? 0)%Z && PyStr.truthy (PyStr.strip out)
              then [StatusLabelConfig
                      ("Status: Connected to " ++ PyStr.strip out)%string;
                    DisconnectButtonConfig normal]
              else [StatusLabelConfig "Status: Disconnected";
                    DisconnectButtonConfig disabled]
          | _ => [StatusLabelConfig "Status: Disconnected";
                  DisconnectButtonConfig disabled]
          end.
Proof.
  intros Hh. cbv zeta. unfold create_main_window.
  rewrite !outcome_bind, !trace_bind.
  cbn [emit outcome trace fst snd app threads_started status_shown filter
         is_status_widget errors_shown is_error_dialog timers_scheduled is_timer].
  revert Hh. unfold update_status, get_active_vpn_interface.
  destruct (helper [WIREGUARD_BASH_SCRIPT; "get_active"])
    as [d rc out err| | |msg] eqn:H; intros Hh; [| congruence | |].
  - destruct (Z.eq_dec rc 0) as [->|Hrc].
    + rewrite (run_zero_quiet _ _ _ _ _ _ _ H). cbn.
      destruct (PyStr.strip out); cbn; repeat split; reflexivity.
    + rewrite (run_nonzero _ _ _ _ _ _ _ _ _ H Hrc).
      apply Z.eqb_neq in Hrc. cbn [failed]. rewrite Hrc. cbn.
      repeat split; reflexivity.
  - rewrite (run_not_found _ _ _ _ _ H). cbn. repeat split; reflexivity.
  - rewrite (run_fails _ _ _ _ _ _ H). cbn. repeat split; reflexivity.
Qed.

Lemma create_main_window_first_status_witness :
  status_shown
    (trace (create_main_window "/opt/vpn/VPN.sh" (fun _ => Exits 1 0 " home " "")))
  = [StatusLabelConfig "Status: Checking...";
     DisconnectButtonConfig disabled;
     StatusLabelConfig "Status: Connected to home";
     DisconnectButtonConfig normal].
Proof.
  apply (create_main_window_first_status "/opt/vpn/VPN.sh"
           (fun _ => Exits 1 0 " home " "")).
  discriminate.
Defined.
